(** * RotatingMagnetFilamentMonitor: decoding, synchronisation and calibration

    A shallow embedding of
    [src/RepRapFirmware/src/FilamentMonitors/RotatingMagnetFilamentMonitor.cpp].

    - C++ [float] is IEEE 754 binary32: [spec_float] with precision 24 and
      maximal exponent 128, round to nearest even.
    - [uint16_t], [uint8_t] and [uint32_t] members are [Z] with the wrap-around
      written out where the code can overflow.
    - The class members form the record [Monitor]; member functions take the
      record and return the new one (explicit state passing).
    - What the monitor reads from its collaborators (the receive buffer of the
      base class, [millis()], [ExtruderPrintingSince()]) is passed in. *)

From Stdlib Require Import ZArith List Bool Lia.
From Stdlib Require Import Floats.SpecFloat.
Import ListNotations.
Local Open Scope Z_scope.

(** ** binary32 arithmetic *)

Definition float32 : Type := spec_float.

Module F32.

Definition prec : Z := 24.
Definition emax : Z := 128.

(** [m * 2^e], rounded to binary32. *)
Definition dyadic (m e : Z) : float32 := binary_normalize prec emax m e false.

(** Conversion of an integer, as in [(float)movement]. *)
Definition of_Z (z : Z) : float32 := dyadic z 0.

Definition zero : float32 := S754_zero false.

Definition add : float32 -> float32 -> float32 := SFadd prec emax.
Definition sub : float32 -> float32 -> float32 := SFsub prec emax.
Definition mul : float32 -> float32 -> float32 := SFmul prec emax.
Definition div : float32 -> float32 -> float32 := SFdiv prec emax.
Definition neg : float32 -> float32 := SFopp.

(** The comparisons are false as soon as an operand is a NaN. *)
Definition lt (a b : float32) : bool := SFltb a b.
Definition gt (a b : float32) : bool := SFltb b a.
Definition ge (a b : float32) : bool := SFleb b a.

End F32.

(** ** Machine integers *)

Definition wrap8 (z : Z) : Z := z mod 2 ^ 8.
Definition wrap16 (z : Z) : Z := z mod 2 ^ 16.
Definition wrap32 (z : Z) : Z := z mod 2 ^ 32.

(** [(int32_t)u] for a [uint32_t] value [u]. *)
Definition to_int32 (u : Z) : Z :=
  if wrap32 u <? 2 ^ 31 then wrap32 u else wrap32 u - 2 ^ 32.

(** ** Types *)

Inductive MagneticMonitorState : Type := idle | calibrating | comparing.

(** The status values are qualified as in the source:
    [FilamentSensorStatus.sensorError] is the status, [sensorError] the member. *)
Module FilamentSensorStatus.
Inductive t : Type :=
  | ok
  | noFilament
  | tooLittleMovement
  | tooMuchMovement
  | sensorError
  | noDataReceived.
End FilamentSensorStatus.

(** Modelled from the spec: the word-layout constants of
    [RotatingMagnetFilamentMonitor.h], which is not among the sources.  The
    functions below take them as a parameter; [documented_layout] gives them
    the values of the layouts written out in [HandleIncomingData]. *)
Record Layout : Type := mkLayout {
  TypeMagnetV1ErrorMask : Z;
  TypeMagnetV1SwitchOpenMask : Z;
  TypeMagnetV2MessageTypeMask : Z;
  TypeMagnetV2MessageTypePosition : Z;
  TypeMagnetV2MessageTypeError : Z;
  TypeMagnetV2MessageTypeInfo : Z;
  TypeMagnetV2SwitchOpenMask : Z;
  TypeMagnetV2InfoTypeMask : Z;
  TypeMagnetV2InfoTypeVersion : Z;
  TypeMagnetV3InfoTypeMagnitude : Z;
  TypeMagnetV3InfoTypeAgc : Z;
  TypeMagnetAngleMask : Z
}.

(** Version 1:  data [0S00 00pp pppppppp], error [1000 0000 00000000].
    Version 2+: data [P00S 10pp pppppppp], error [P010 0000 0000eeee],
    version [P110 0000 vvvvvvvv], magnitude [P110 0010 mmmmmmmm],
    AGC [P110 0011 aaaaaaaa]. *)
Definition documented_layout : Layout := {|
  TypeMagnetV1ErrorMask := 0x8000;
  TypeMagnetV1SwitchOpenMask := 0x4000;
  TypeMagnetV2MessageTypeMask := 0x6C00;
  TypeMagnetV2MessageTypePosition := 0x0800;
  TypeMagnetV2MessageTypeError := 0x2000;
  TypeMagnetV2MessageTypeInfo := 0x6000;
  TypeMagnetV2SwitchOpenMask := 0x1000;
  TypeMagnetV2InfoTypeMask := 0x1F00;
  TypeMagnetV2InfoTypeVersion := 0x0000;
  TypeMagnetV3InfoTypeMagnitude := 0x0200;
  TypeMagnetV3InfoTypeAgc := 0x0300;
  TypeMagnetAngleMask := 0x03FF
|}.

(** [SyncDelayMillis]: the delay required after a retract or reprime move
    before a measurement is accepted. *)
Definition SyncDelayMillis : Z := 10.

(** ** The monitor object *)

Record Monitor : Type := mkMonitor {
  mmPerRev : float32;
  minMovementAllowed : float32;
  maxMovementAllowed : float32;
  minimumExtrusionCheckLength : float32;
  comparisonEnabled : bool;
  checkNonPrintingMoves : bool;
  framingErrorCount : Z;
  parityErrorCount : Z;
  overrunErrorCount : Z;
  polarityErrorCount : Z;
  overdueCount : Z;
  candidateStartBitTime : Z;
  extrusionCommandedAtCandidateStartBit : float32;
  lastSyncTime : Z;
  extrusionCommandedSinceLastSync : float32;
  movementMeasuredSinceLastSync : float32;
  extrusionCommandedThisSegment : float32;
  movementMeasuredThisSegment : float32;
  sensorValue : Z;
  lastMeasurementTime : Z;
  switchOpenMask : Z;
  version : Z;
  lastErrorCode : Z;
  magnitude : Z;
  agc : Z;
  sensorError : bool;
  dataReceived : bool;
  wasPrintingAtStartBit : bool;
  haveStartBitData : bool;
  synced : bool;
  magneticMonitorState : MagneticMonitorState;
  totalExtrusionCommanded : float32;
  totalMovementMeasured : float32;
  minMovementRatio : float32;
  maxMovementRatio : float32;
  backwards : bool
}.

Definition set_mmPerRev (x : float32) (m : Monitor) : Monitor :=
  mkMonitor x (minMovementAllowed m) (maxMovementAllowed m) (minimumExtrusionCheckLength m)
    (comparisonEnabled m) (checkNonPrintingMoves m) (framingErrorCount m) (parityErrorCount m)
    (overrunErrorCount m) (polarityErrorCount m) (overdueCount m) (candidateStartBitTime m)
    (extrusionCommandedAtCandidateStartBit m) (lastSyncTime m)
    (extrusionCommandedSinceLastSync m) (movementMeasuredSinceLastSync m)
    (extrusionCommandedThisSegment m) (movementMeasuredThisSegment m) (sensorValue m)
    (lastMeasurementTime m) (switchOpenMask m) (version m) (lastErrorCode m) (magnitude m)
    (agc m) (sensorError m) (dataReceived m) (wasPrintingAtStartBit m) (haveStartBitData m)
    (synced m) (magneticMonitorState m) (totalExtrusionCommanded m) (totalMovementMeasured m)
    (minMovementRatio m) (maxMovementRatio m) (backwards m).

Definition set_minMovementAllowed (x : float32) (m : Monitor) : Monitor :=
  mkMonitor (mmPerRev m) x (maxMovementAllowed m) (minimumExtrusionCheckLength m)
    (comparisonEnabled m) (checkNonPrintingMoves m) (framingErrorCount m) (parityErrorCount m)
    (overrunErrorCount m) (polarityErrorCount m) (overdueCount m) (candidateStartBitTime m)
    (extrusionCommandedAtCandidateStartBit m) (lastSyncTime m)
    (extrusionCommandedSinceLastSync m) (movementMeasuredSinceLastSync m)
    (extrusionCommandedThisSegment m) (movementMeasuredThisSegment m) (sensorValue m)
    (lastMeasurementTime m) (switchOpenMask m) (version m) (lastErrorCode m) (magnitude m)
    (agc m) (sensorError m) (dataReceived m) (wasPrintingAtStartBit m) (haveStartBitData m)
    (synced m) (magneticMonitorState m) (totalExtrusionCommanded m) (totalMovementMeasured m)
    (minMovementRatio m) (maxMovementRatio m) (backwards m).

Definition set_maxMovementAllowed (x : float32) (m : Monitor) : Monitor :=
  mkMonitor (mmPerRev m) (minMovementAllowed m) x (minimumExtrusionCheckLength m)
    (comparisonEnabled m) (checkNonPrintingMoves m) (framingErrorCount m) (parityErrorCount m)
    (overrunErrorCount m) (polarityErrorCount m) (overdueCount m) (candidateStartBitTime m)
    (extrusionCommandedAtCandidateStartBit m) (lastSyncTime m)
    (extrusionCommandedSinceLastSync m) (movementMeasuredSinceLastSync m)
    (extrusionCommandedThisSegment m) (movementMeasuredThisSegment m) (sensorValue m)
    (lastMeasurementTime m) (switchOpenMask m) (version m) (lastErrorCode m) (magnitude m)
    (agc m) (sensorError m) (dataReceived m) (wasPrintingAtStartBit m) (haveStartBitData m)
    (synced m) (magneticMonitorState m) (totalExtrusionCommanded m) (totalMovementMeasured m)
    (minMovementRatio m) (maxMovementRatio m) (backwards m).

Definition set_minimumExtrusionCheckLength (x : float32) (m : Monitor) : Monitor :=
  mkMonitor (mmPerRev m) (minMovementAllowed m) (maxMovementAllowed m) x (comparisonEnabled m)
    (checkNonPrintingMoves m) (framingErrorCount m) (parityErrorCount m) (overrunErrorCount m)
    (polarityErrorCount m) (overdueCount m) (candidateStartBitTime m)
    (extrusionCommandedAtCandidateStartBit m) (lastSyncTime m)
    (extrusionCommandedSinceLastSync m) (movementMeasuredSinceLastSync m)
    (extrusionCommandedThisSegment m) (movementMeasuredThisSegment m) (sensorValue m)
    (lastMeasurementTime m) (switchOpenMask m) (version m) (lastErrorCode m) (magnitude m)
    (agc m) (sensorError m) (dataReceived m) (wasPrintingAtStartBit m) (haveStartBitData m)
    (synced m) (magneticMonitorState m) (totalExtrusionCommanded m) (totalMovementMeasured m)
    (minMovementRatio m) (maxMovementRatio m) (backwards m).

Definition set_comparisonEnabled (x : bool) (m : Monitor) : Monitor :=
  mkMonitor (mmPerRev m) (minMovementAllowed m) (maxMovementAllowed m)
    (minimumExtrusionCheckLength m) x (checkNonPrintingMoves m) (framingErrorCount m)
    (parityErrorCount m) (overrunErrorCount m) (polarityErrorCount m) (overdueCount m)
    (candidateStartBitTime m) (extrusionCommandedAtCandidateStartBit m) (lastSyncTime m)
    (extrusionCommandedSinceLastSync m) (movementMeasuredSinceLastSync m)
    (extrusionCommandedThisSegment m) (movementMeasuredThisSegment m) (sensorValue m)
    (lastMeasurementTime m) (switchOpenMask m) (version m) (lastErrorCode m) (magnitude m)
    (agc m) (sensorError m) (dataReceived m) (wasPrintingAtStartBit m) (haveStartBitData m)
    (synced m) (magneticMonitorState m) (totalExtrusionCommanded m) (totalMovementMeasured m)
    (minMovementRatio m) (maxMovementRatio m) (backwards m).

Definition set_checkNonPrintingMoves (x : bool) (m : Monitor) : Monitor :=
  mkMonitor (mmPerRev m) (minMovementAllowed m) (maxMovementAllowed m)
    (minimumExtrusionCheckLength m) (comparisonEnabled m) x (framingErrorCount m)
    (parityErrorCount m) (overrunErrorCount m) (polarityErrorCount m) (overdueCount m)
    (candidateStartBitTime m) (extrusionCommandedAtCandidateStartBit m) (lastSyncTime m)
    (extrusionCommandedSinceLastSync m) (movementMeasuredSinceLastSync m)
    (extrusionCommandedThisSegment m) (movementMeasuredThisSegment m) (sensorValue m)
    (lastMeasurementTime m) (switchOpenMask m) (version m) (lastErrorCode m) (magnitude m)
    (agc m) (sensorError m) (dataReceived m) (wasPrintingAtStartBit m) (haveStartBitData m)
    (synced m) (magneticMonitorState m) (totalExtrusionCommanded m) (totalMovementMeasured m)
    (minMovementRatio m) (maxMovementRatio m) (backwards m).

Definition set_framingErrorCount (x : Z) (m : Monitor) : Monitor :=
  mkMonitor (mmPerRev m) (minMovementAllowed m) (maxMovementAllowed m)
    (minimumExtrusionCheckLength m) (comparisonEnabled m) (checkNonPrintingMoves m) x
    (parityErrorCount m) (overrunErrorCount m) (polarityErrorCount m) (overdueCount m)
    (candidateStartBitTime m) (extrusionCommandedAtCandidateStartBit m) (lastSyncTime m)
    (extrusionCommandedSinceLastSync m) (movementMeasuredSinceLastSync m)
    (extrusionCommandedThisSegment m) (movementMeasuredThisSegment m) (sensorValue m)
    (lastMeasurementTime m) (switchOpenMask m) (version m) (lastErrorCode m) (magnitude m)
    (agc m) (sensorError m) (dataReceived m) (wasPrintingAtStartBit m) (haveStartBitData m)
    (synced m) (magneticMonitorState m) (totalExtrusionCommanded m) (totalMovementMeasured m)
    (minMovementRatio m) (maxMovementRatio m) (backwards m).

Definition set_parityErrorCount (x : Z) (m : Monitor) : Monitor :=
  mkMonitor (mmPerRev m) (minMovementAllowed m) (maxMovementAllowed m)
    (minimumExtrusionCheckLength m) (comparisonEnabled m) (checkNonPrintingMoves m)
    (framingErrorCount m) x (overrunErrorCount m) (polarityErrorCount m) (overdueCount m)
    (candidateStartBitTime m) (extrusionCommandedAtCandidateStartBit m) (lastSyncTime m)
    (extrusionCommandedSinceLastSync m) (movementMeasuredSinceLastSync m)
    (extrusionCommandedThisSegment m) (movementMeasuredThisSegment m) (sensorValue m)
    (lastMeasurementTime m) (switchOpenMask m) (version m) (lastErrorCode m) (magnitude m)
    (agc m) (sensorError m) (dataReceived m) (wasPrintingAtStartBit m) (haveStartBitData m)
    (synced m) (magneticMonitorState m) (totalExtrusionCommanded m) (totalMovementMeasured m)
    (minMovementRatio m) (maxMovementRatio m) (backwards m).

Definition set_overrunErrorCount (x : Z) (m : Monitor) : Monitor :=
  mkMonitor (mmPerRev m) (minMovementAllowed m) (maxMovementAllowed m)
    (minimumExtrusionCheckLength m) (comparisonEnabled m) (checkNonPrintingMoves m)
    (framingErrorCount m) (parityErrorCount m) x (polarityErrorCount m) (overdueCount m)
    (candidateStartBitTime m) (extrusionCommandedAtCandidateStartBit m) (lastSyncTime m)
    (extrusionCommandedSinceLastSync m) (movementMeasuredSinceLastSync m)
    (extrusionCommandedThisSegment m) (movementMeasuredThisSegment m) (sensorValue m)
    (lastMeasurementTime m) (switchOpenMask m) (version m) (lastErrorCode m) (magnitude m)
    (agc m) (sensorError m) (dataReceived m) (wasPrintingAtStartBit m) (haveStartBitData m)
    (synced m) (magneticMonitorState m) (totalExtrusionCommanded m) (totalMovementMeasured m)
    (minMovementRatio m) (maxMovementRatio m) (backwards m).

Definition set_polarityErrorCount (x : Z) (m : Monitor) : Monitor :=
  mkMonitor (mmPerRev m) (minMovementAllowed m) (maxMovementAllowed m)
    (minimumExtrusionCheckLength m) (comparisonEnabled m) (checkNonPrintingMoves m)
    (framingErrorCount m) (parityErrorCount m) (overrunErrorCount m) x (overdueCount m)
    (candidateStartBitTime m) (extrusionCommandedAtCandidateStartBit m) (lastSyncTime m)
    (extrusionCommandedSinceLastSync m) (movementMeasuredSinceLastSync m)
    (extrusionCommandedThisSegment m) (movementMeasuredThisSegment m) (sensorValue m)
    (lastMeasurementTime m) (switchOpenMask m) (version m) (lastErrorCode m) (magnitude m)
    (agc m) (sensorError m) (dataReceived m) (wasPrintingAtStartBit m) (haveStartBitData m)
    (synced m) (magneticMonitorState m) (totalExtrusionCommanded m) (totalMovementMeasured m)
    (minMovementRatio m) (maxMovementRatio m) (backwards m).

Definition set_overdueCount (x : Z) (m : Monitor) : Monitor :=
  mkMonitor (mmPerRev m) (minMovementAllowed m) (maxMovementAllowed m)
    (minimumExtrusionCheckLength m) (comparisonEnabled m) (checkNonPrintingMoves m)
    (framingErrorCount m) (parityErrorCount m) (overrunErrorCount m) (polarityErrorCount m) x
    (candidateStartBitTime m) (extrusionCommandedAtCandidateStartBit m) (lastSyncTime m)
    (extrusionCommandedSinceLastSync m) (movementMeasuredSinceLastSync m)
    (extrusionCommandedThisSegment m) (movementMeasuredThisSegment m) (sensorValue m)
    (lastMeasurementTime m) (switchOpenMask m) (version m) (lastErrorCode m) (magnitude m)
    (agc m) (sensorError m) (dataReceived m) (wasPrintingAtStartBit m) (haveStartBitData m)
    (synced m) (magneticMonitorState m) (totalExtrusionCommanded m) (totalMovementMeasured m)
    (minMovementRatio m) (maxMovementRatio m) (backwards m).

Definition set_candidateStartBitTime (x : Z) (m : Monitor) : Monitor :=
  mkMonitor (mmPerRev m) (minMovementAllowed m) (maxMovementAllowed m)
    (minimumExtrusionCheckLength m) (comparisonEnabled m) (checkNonPrintingMoves m)
    (framingErrorCount m) (parityErrorCount m) (overrunErrorCount m) (polarityErrorCount m)
    (overdueCount m) x (extrusionCommandedAtCandidateStartBit m) (lastSyncTime m)
    (extrusionCommandedSinceLastSync m) (movementMeasuredSinceLastSync m)
    (extrusionCommandedThisSegment m) (movementMeasuredThisSegment m) (sensorValue m)
    (lastMeasurementTime m) (switchOpenMask m) (version m) (lastErrorCode m) (magnitude m)
    (agc m) (sensorError m) (dataReceived m) (wasPrintingAtStartBit m) (haveStartBitData m)
    (synced m) (magneticMonitorState m) (totalExtrusionCommanded m) (totalMovementMeasured m)
    (minMovementRatio m) (maxMovementRatio m) (backwards m).

Definition set_extrusionCommandedAtCandidateStartBit (x : float32) (m : Monitor) : Monitor :=
  mkMonitor (mmPerRev m) (minMovementAllowed m) (maxMovementAllowed m)
    (minimumExtrusionCheckLength m) (comparisonEnabled m) (checkNonPrintingMoves m)
    (framingErrorCount m) (parityErrorCount m) (overrunErrorCount m) (polarityErrorCount m)
    (overdueCount m) (candidateStartBitTime m) x (lastSyncTime m)
    (extrusionCommandedSinceLastSync m) (movementMeasuredSinceLastSync m)
    (extrusionCommandedThisSegment m) (movementMeasuredThisSegment m) (sensorValue m)
    (lastMeasurementTime m) (switchOpenMask m) (version m) (lastErrorCode m) (magnitude m)
    (agc m) (sensorError m) (dataReceived m) (wasPrintingAtStartBit m) (haveStartBitData m)
    (synced m) (magneticMonitorState m) (totalExtrusionCommanded m) (totalMovementMeasured m)
    (minMovementRatio m) (maxMovementRatio m) (backwards m).

Definition set_lastSyncTime (x : Z) (m : Monitor) : Monitor :=
  mkMonitor (mmPerRev m) (minMovementAllowed m) (maxMovementAllowed m)
    (minimumExtrusionCheckLength m) (comparisonEnabled m) (checkNonPrintingMoves m)
    (framingErrorCount m) (parityErrorCount m) (overrunErrorCount m) (polarityErrorCount m)
    (overdueCount m) (candidateStartBitTime m) (extrusionCommandedAtCandidateStartBit m) x
    (extrusionCommandedSinceLastSync m) (movementMeasuredSinceLastSync m)
    (extrusionCommandedThisSegment m) (movementMeasuredThisSegment m) (sensorValue m)
    (lastMeasurementTime m) (switchOpenMask m) (version m) (lastErrorCode m) (magnitude m)
    (agc m) (sensorError m) (dataReceived m) (wasPrintingAtStartBit m) (haveStartBitData m)
    (synced m) (magneticMonitorState m) (totalExtrusionCommanded m) (totalMovementMeasured m)
    (minMovementRatio m) (maxMovementRatio m) (backwards m).

Definition set_extrusionCommandedSinceLastSync (x : float32) (m : Monitor) : Monitor :=
  mkMonitor (mmPerRev m) (minMovementAllowed m) (maxMovementAllowed m)
    (minimumExtrusionCheckLength m) (comparisonEnabled m) (checkNonPrintingMoves m)
    (framingErrorCount m) (parityErrorCount m) (overrunErrorCount m) (polarityErrorCount m)
    (overdueCount m) (candidateStartBitTime m) (extrusionCommandedAtCandidateStartBit m)
    (lastSyncTime m) x (movementMeasuredSinceLastSync m) (extrusionCommandedThisSegment m)
    (movementMeasuredThisSegment m) (sensorValue m) (lastMeasurementTime m) (switchOpenMask m)
    (version m) (lastErrorCode m) (magnitude m) (agc m) (sensorError m) (dataReceived m)
    (wasPrintingAtStartBit m) (haveStartBitData m) (synced m) (magneticMonitorState m)
    (totalExtrusionCommanded m) (totalMovementMeasured m) (minMovementRatio m)
    (maxMovementRatio m) (backwards m).

Definition set_movementMeasuredSinceLastSync (x : float32) (m : Monitor) : Monitor :=
  mkMonitor (mmPerRev m) (minMovementAllowed m) (maxMovementAllowed m)
    (minimumExtrusionCheckLength m) (comparisonEnabled m) (checkNonPrintingMoves m)
    (framingErrorCount m) (parityErrorCount m) (overrunErrorCount m) (polarityErrorCount m)
    (overdueCount m) (candidateStartBitTime m) (extrusionCommandedAtCandidateStartBit m)
    (lastSyncTime m) (extrusionCommandedSinceLastSync m) x (extrusionCommandedThisSegment m)
    (movementMeasuredThisSegment m) (sensorValue m) (lastMeasurementTime m) (switchOpenMask m)
    (version m) (lastErrorCode m) (magnitude m) (agc m) (sensorError m) (dataReceived m)
    (wasPrintingAtStartBit m) (haveStartBitData m) (synced m) (magneticMonitorState m)
    (totalExtrusionCommanded m) (totalMovementMeasured m) (minMovementRatio m)
    (maxMovementRatio m) (backwards m).

Definition set_extrusionCommandedThisSegment (x : float32) (m : Monitor) : Monitor :=
  mkMonitor (mmPerRev m) (minMovementAllowed m) (maxMovementAllowed m)
    (minimumExtrusionCheckLength m) (comparisonEnabled m) (checkNonPrintingMoves m)
    (framingErrorCount m) (parityErrorCount m) (overrunErrorCount m) (polarityErrorCount m)
    (overdueCount m) (candidateStartBitTime m) (extrusionCommandedAtCandidateStartBit m)
    (lastSyncTime m) (extrusionCommandedSinceLastSync m) (movementMeasuredSinceLastSync m) x
    (movementMeasuredThisSegment m) (sensorValue m) (lastMeasurementTime m) (switchOpenMask m)
    (version m) (lastErrorCode m) (magnitude m) (agc m) (sensorError m) (dataReceived m)
    (wasPrintingAtStartBit m) (haveStartBitData m) (synced m) (magneticMonitorState m)
    (totalExtrusionCommanded m) (totalMovementMeasured m) (minMovementRatio m)
    (maxMovementRatio m) (backwards m).

Definition set_movementMeasuredThisSegment (x : float32) (m : Monitor) : Monitor :=
  mkMonitor (mmPerRev m) (minMovementAllowed m) (maxMovementAllowed m)
    (minimumExtrusionCheckLength m) (comparisonEnabled m) (checkNonPrintingMoves m)
    (framingErrorCount m) (parityErrorCount m) (overrunErrorCount m) (polarityErrorCount m)
    (overdueCount m) (candidateStartBitTime m) (extrusionCommandedAtCandidateStartBit m)
    (lastSyncTime m) (extrusionCommandedSinceLastSync m) (movementMeasuredSinceLastSync m)
    (extrusionCommandedThisSegment m) x (sensorValue m) (lastMeasurementTime m)
    (switchOpenMask m) (version m) (lastErrorCode m) (magnitude m) (agc m) (sensorError m)
    (dataReceived m) (wasPrintingAtStartBit m) (haveStartBitData m) (synced m)
    (magneticMonitorState m) (totalExtrusionCommanded m) (totalMovementMeasured m)
    (minMovementRatio m) (maxMovementRatio m) (backwards m).

Definition set_sensorValue (x : Z) (m : Monitor) : Monitor :=
  mkMonitor (mmPerRev m) (minMovementAllowed m) (maxMovementAllowed m)
    (minimumExtrusionCheckLength m) (comparisonEnabled m) (checkNonPrintingMoves m)
    (framingErrorCount m) (parityErrorCount m) (overrunErrorCount m) (polarityErrorCount m)
    (overdueCount m) (candidateStartBitTime m) (extrusionCommandedAtCandidateStartBit m)
    (lastSyncTime m) (extrusionCommandedSinceLastSync m) (movementMeasuredSinceLastSync m)
    (extrusionCommandedThisSegment m) (movementMeasuredThisSegment m) x (lastMeasurementTime m)
    (switchOpenMask m) (version m) (lastErrorCode m) (magnitude m) (agc m) (sensorError m)
    (dataReceived m) (wasPrintingAtStartBit m) (haveStartBitData m) (synced m)
    (magneticMonitorState m) (totalExtrusionCommanded m) (totalMovementMeasured m)
    (minMovementRatio m) (maxMovementRatio m) (backwards m).

Definition set_lastMeasurementTime (x : Z) (m : Monitor) : Monitor :=
  mkMonitor (mmPerRev m) (minMovementAllowed m) (maxMovementAllowed m)
    (minimumExtrusionCheckLength m) (comparisonEnabled m) (checkNonPrintingMoves m)
    (framingErrorCount m) (parityErrorCount m) (overrunErrorCount m) (polarityErrorCount m)
    (overdueCount m) (candidateStartBitTime m) (extrusionCommandedAtCandidateStartBit m)
    (lastSyncTime m) (extrusionCommandedSinceLastSync m) (movementMeasuredSinceLastSync m)
    (extrusionCommandedThisSegment m) (movementMeasuredThisSegment m) (sensorValue m) x
    (switchOpenMask m) (version m) (lastErrorCode m) (magnitude m) (agc m) (sensorError m)
    (dataReceived m) (wasPrintingAtStartBit m) (haveStartBitData m) (synced m)
    (magneticMonitorState m) (totalExtrusionCommanded m) (totalMovementMeasured m)
    (minMovementRatio m) (maxMovementRatio m) (backwards m).

Definition set_switchOpenMask (x : Z) (m : Monitor) : Monitor :=
  mkMonitor (mmPerRev m) (minMovementAllowed m) (maxMovementAllowed m)
    (minimumExtrusionCheckLength m) (comparisonEnabled m) (checkNonPrintingMoves m)
    (framingErrorCount m) (parityErrorCount m) (overrunErrorCount m) (polarityErrorCount m)
    (overdueCount m) (candidateStartBitTime m) (extrusionCommandedAtCandidateStartBit m)
    (lastSyncTime m) (extrusionCommandedSinceLastSync m) (movementMeasuredSinceLastSync m)
    (extrusionCommandedThisSegment m) (movementMeasuredThisSegment m) (sensorValue m)
    (lastMeasurementTime m) x (version m) (lastErrorCode m) (magnitude m) (agc m)
    (sensorError m) (dataReceived m) (wasPrintingAtStartBit m) (haveStartBitData m) (synced m)
    (magneticMonitorState m) (totalExtrusionCommanded m) (totalMovementMeasured m)
    (minMovementRatio m) (maxMovementRatio m) (backwards m).

Definition set_version (x : Z) (m : Monitor) : Monitor :=
  mkMonitor (mmPerRev m) (minMovementAllowed m) (maxMovementAllowed m)
    (minimumExtrusionCheckLength m) (comparisonEnabled m) (checkNonPrintingMoves m)
    (framingErrorCount m) (parityErrorCount m) (overrunErrorCount m) (polarityErrorCount m)
    (overdueCount m) (candidateStartBitTime m) (extrusionCommandedAtCandidateStartBit m)
    (lastSyncTime m) (extrusionCommandedSinceLastSync m) (movementMeasuredSinceLastSync m)
    (extrusionCommandedThisSegment m) (movementMeasuredThisSegment m) (sensorValue m)
    (lastMeasurementTime m) (switchOpenMask m) x (lastErrorCode m) (magnitude m) (agc m)
    (sensorError m) (dataReceived m) (wasPrintingAtStartBit m) (haveStartBitData m) (synced m)
    (magneticMonitorState m) (totalExtrusionCommanded m) (totalMovementMeasured m)
    (minMovementRatio m) (maxMovementRatio m) (backwards m).

Definition set_lastErrorCode (x : Z) (m : Monitor) : Monitor :=
  mkMonitor (mmPerRev m) (minMovementAllowed m) (maxMovementAllowed m)
    (minimumExtrusionCheckLength m) (comparisonEnabled m) (checkNonPrintingMoves m)
    (framingErrorCount m) (parityErrorCount m) (overrunErrorCount m) (polarityErrorCount m)
    (overdueCount m) (candidateStartBitTime m) (extrusionCommandedAtCandidateStartBit m)
    (lastSyncTime m) (extrusionCommandedSinceLastSync m) (movementMeasuredSinceLastSync m)
    (extrusionCommandedThisSegment m) (movementMeasuredThisSegment m) (sensorValue m)
    (lastMeasurementTime m) (switchOpenMask m) (version m) x (magnitude m) (agc m)
    (sensorError m) (dataReceived m) (wasPrintingAtStartBit m) (haveStartBitData m) (synced m)
    (magneticMonitorState m) (totalExtrusionCommanded m) (totalMovementMeasured m)
    (minMovementRatio m) (maxMovementRatio m) (backwards m).

Definition set_magnitude (x : Z) (m : Monitor) : Monitor :=
  mkMonitor (mmPerRev m) (minMovementAllowed m) (maxMovementAllowed m)
    (minimumExtrusionCheckLength m) (comparisonEnabled m) (checkNonPrintingMoves m)
    (framingErrorCount m) (parityErrorCount m) (overrunErrorCount m) (polarityErrorCount m)
    (overdueCount m) (candidateStartBitTime m) (extrusionCommandedAtCandidateStartBit m)
    (lastSyncTime m) (extrusionCommandedSinceLastSync m) (movementMeasuredSinceLastSync m)
    (extrusionCommandedThisSegment m) (movementMeasuredThisSegment m) (sensorValue m)
    (lastMeasurementTime m) (switchOpenMask m) (version m) (lastErrorCode m) x (agc m)
    (sensorError m) (dataReceived m) (wasPrintingAtStartBit m) (haveStartBitData m) (synced m)
    (magneticMonitorState m) (totalExtrusionCommanded m) (totalMovementMeasured m)
    (minMovementRatio m) (maxMovementRatio m) (backwards m).

Definition set_agc (x : Z) (m : Monitor) : Monitor :=
  mkMonitor (mmPerRev m) (minMovementAllowed m) (maxMovementAllowed m)
    (minimumExtrusionCheckLength m) (comparisonEnabled m) (checkNonPrintingMoves m)
    (framingErrorCount m) (parityErrorCount m) (overrunErrorCount m) (polarityErrorCount m)
    (overdueCount m) (candidateStartBitTime m) (extrusionCommandedAtCandidateStartBit m)
    (lastSyncTime m) (extrusionCommandedSinceLastSync m) (movementMeasuredSinceLastSync m)
    (extrusionCommandedThisSegment m) (movementMeasuredThisSegment m) (sensorValue m)
    (lastMeasurementTime m) (switchOpenMask m) (version m) (lastErrorCode m) (magnitude m) x
    (sensorError m) (dataReceived m) (wasPrintingAtStartBit m) (haveStartBitData m) (synced m)
    (magneticMonitorState m) (totalExtrusionCommanded m) (totalMovementMeasured m)
    (minMovementRatio m) (maxMovementRatio m) (backwards m).

Definition set_sensorError (x : bool) (m : Monitor) : Monitor :=
  mkMonitor (mmPerRev m) (minMovementAllowed m) (maxMovementAllowed m)
    (minimumExtrusionCheckLength m) (comparisonEnabled m) (checkNonPrintingMoves m)
    (framingErrorCount m) (parityErrorCount m) (overrunErrorCount m) (polarityErrorCount m)
    (overdueCount m) (candidateStartBitTime m) (extrusionCommandedAtCandidateStartBit m)
    (lastSyncTime m) (extrusionCommandedSinceLastSync m) (movementMeasuredSinceLastSync m)
    (extrusionCommandedThisSegment m) (movementMeasuredThisSegment m) (sensorValue m)
    (lastMeasurementTime m) (switchOpenMask m) (version m) (lastErrorCode m) (magnitude m)
    (agc m) x (dataReceived m) (wasPrintingAtStartBit m) (haveStartBitData m) (synced m)
    (magneticMonitorState m) (totalExtrusionCommanded m) (totalMovementMeasured m)
    (minMovementRatio m) (maxMovementRatio m) (backwards m).

Definition set_dataReceived (x : bool) (m : Monitor) : Monitor :=
  mkMonitor (mmPerRev m) (minMovementAllowed m) (maxMovementAllowed m)
    (minimumExtrusionCheckLength m) (comparisonEnabled m) (checkNonPrintingMoves m)
    (framingErrorCount m) (parityErrorCount m) (overrunErrorCount m) (polarityErrorCount m)
    (overdueCount m) (candidateStartBitTime m) (extrusionCommandedAtCandidateStartBit m)
    (lastSyncTime m) (extrusionCommandedSinceLastSync m) (movementMeasuredSinceLastSync m)
    (extrusionCommandedThisSegment m) (movementMeasuredThisSegment m) (sensorValue m)
    (lastMeasurementTime m) (switchOpenMask m) (version m) (lastErrorCode m) (magnitude m)
    (agc m) (sensorError m) x (wasPrintingAtStartBit m) (haveStartBitData m) (synced m)
    (magneticMonitorState m) (totalExtrusionCommanded m) (totalMovementMeasured m)
    (minMovementRatio m) (maxMovementRatio m) (backwards m).

Definition set_wasPrintingAtStartBit (x : bool) (m : Monitor) : Monitor :=
  mkMonitor (mmPerRev m) (minMovementAllowed m) (maxMovementAllowed m)
    (minimumExtrusionCheckLength m) (comparisonEnabled m) (checkNonPrintingMoves m)
    (framingErrorCount m) (parityErrorCount m) (overrunErrorCount m) (polarityErrorCount m)
    (overdueCount m) (candidateStartBitTime m) (extrusionCommandedAtCandidateStartBit m)
    (lastSyncTime m) (extrusionCommandedSinceLastSync m) (movementMeasuredSinceLastSync m)
    (extrusionCommandedThisSegment m) (movementMeasuredThisSegment m) (sensorValue m)
    (lastMeasurementTime m) (switchOpenMask m) (version m) (lastErrorCode m) (magnitude m)
    (agc m) (sensorError m) (dataReceived m) x (haveStartBitData m) (synced m)
    (magneticMonitorState m) (totalExtrusionCommanded m) (totalMovementMeasured m)
    (minMovementRatio m) (maxMovementRatio m) (backwards m).

Definition set_haveStartBitData (x : bool) (m : Monitor) : Monitor :=
  mkMonitor (mmPerRev m) (minMovementAllowed m) (maxMovementAllowed m)
    (minimumExtrusionCheckLength m) (comparisonEnabled m) (checkNonPrintingMoves m)
    (framingErrorCount m) (parityErrorCount m) (overrunErrorCount m) (polarityErrorCount m)
    (overdueCount m) (candidateStartBitTime m) (extrusionCommandedAtCandidateStartBit m)
    (lastSyncTime m) (extrusionCommandedSinceLastSync m) (movementMeasuredSinceLastSync m)
    (extrusionCommandedThisSegment m) (movementMeasuredThisSegment m) (sensorValue m)
    (lastMeasurementTime m) (switchOpenMask m) (version m) (lastErrorCode m) (magnitude m)
    (agc m) (sensorError m) (dataReceived m) (wasPrintingAtStartBit m) x (synced m)
    (magneticMonitorState m) (totalExtrusionCommanded m) (totalMovementMeasured m)
    (minMovementRatio m) (maxMovementRatio m) (backwards m).

Definition set_synced (x : bool) (m : Monitor) : Monitor :=
  mkMonitor (mmPerRev m) (minMovementAllowed m) (maxMovementAllowed m)
    (minimumExtrusionCheckLength m) (comparisonEnabled m) (checkNonPrintingMoves m)
    (framingErrorCount m) (parityErrorCount m) (overrunErrorCount m) (polarityErrorCount m)
    (overdueCount m) (candidateStartBitTime m) (extrusionCommandedAtCandidateStartBit m)
    (lastSyncTime m) (extrusionCommandedSinceLastSync m) (movementMeasuredSinceLastSync m)
    (extrusionCommandedThisSegment m) (movementMeasuredThisSegment m) (sensorValue m)
    (lastMeasurementTime m) (switchOpenMask m) (version m) (lastErrorCode m) (magnitude m)
    (agc m) (sensorError m) (dataReceived m) (wasPrintingAtStartBit m) (haveStartBitData m) x
    (magneticMonitorState m) (totalExtrusionCommanded m) (totalMovementMeasured m)
    (minMovementRatio m) (maxMovementRatio m) (backwards m).

Definition set_magneticMonitorState (x : MagneticMonitorState) (m : Monitor) : Monitor :=
  mkMonitor (mmPerRev m) (minMovementAllowed m) (maxMovementAllowed m)
    (minimumExtrusionCheckLength m) (comparisonEnabled m) (checkNonPrintingMoves m)
    (framingErrorCount m) (parityErrorCount m) (overrunErrorCount m) (polarityErrorCount m)
    (overdueCount m) (candidateStartBitTime m) (extrusionCommandedAtCandidateStartBit m)
    (lastSyncTime m) (extrusionCommandedSinceLastSync m) (movementMeasuredSinceLastSync m)
    (extrusionCommandedThisSegment m) (movementMeasuredThisSegment m) (sensorValue m)
    (lastMeasurementTime m) (switchOpenMask m) (version m) (lastErrorCode m) (magnitude m)
    (agc m) (sensorError m) (dataReceived m) (wasPrintingAtStartBit m) (haveStartBitData m)
    (synced m) x (totalExtrusionCommanded m) (totalMovementMeasured m) (minMovementRatio m)
    (maxMovementRatio m) (backwards m).

Definition set_totalExtrusionCommanded (x : float32) (m : Monitor) : Monitor :=
  mkMonitor (mmPerRev m) (minMovementAllowed m) (maxMovementAllowed m)
    (minimumExtrusionCheckLength m) (comparisonEnabled m) (checkNonPrintingMoves m)
    (framingErrorCount m) (parityErrorCount m) (overrunErrorCount m) (polarityErrorCount m)
    (overdueCount m) (candidateStartBitTime m) (extrusionCommandedAtCandidateStartBit m)
    (lastSyncTime m) (extrusionCommandedSinceLastSync m) (movementMeasuredSinceLastSync m)
    (extrusionCommandedThisSegment m) (movementMeasuredThisSegment m) (sensorValue m)
    (lastMeasurementTime m) (switchOpenMask m) (version m) (lastErrorCode m) (magnitude m)
    (agc m) (sensorError m) (dataReceived m) (wasPrintingAtStartBit m) (haveStartBitData m)
    (synced m) (magneticMonitorState m) x (totalMovementMeasured m) (minMovementRatio m)
    (maxMovementRatio m) (backwards m).

Definition set_totalMovementMeasured (x : float32) (m : Monitor) : Monitor :=
  mkMonitor (mmPerRev m) (minMovementAllowed m) (maxMovementAllowed m)
    (minimumExtrusionCheckLength m) (comparisonEnabled m) (checkNonPrintingMoves m)
    (framingErrorCount m) (parityErrorCount m) (overrunErrorCount m) (polarityErrorCount m)
    (overdueCount m) (candidateStartBitTime m) (extrusionCommandedAtCandidateStartBit m)
    (lastSyncTime m) (extrusionCommandedSinceLastSync m) (movementMeasuredSinceLastSync m)
    (extrusionCommandedThisSegment m) (movementMeasuredThisSegment m) (sensorValue m)
    (lastMeasurementTime m) (switchOpenMask m) (version m) (lastErrorCode m) (magnitude m)
    (agc m) (sensorError m) (dataReceived m) (wasPrintingAtStartBit m) (haveStartBitData m)
    (synced m) (magneticMonitorState m) (totalExtrusionCommanded m) x (minMovementRatio m)
    (maxMovementRatio m) (backwards m).

Definition set_minMovementRatio (x : float32) (m : Monitor) : Monitor :=
  mkMonitor (mmPerRev m) (minMovementAllowed m) (maxMovementAllowed m)
    (minimumExtrusionCheckLength m) (comparisonEnabled m) (checkNonPrintingMoves m)
    (framingErrorCount m) (parityErrorCount m) (overrunErrorCount m) (polarityErrorCount m)
    (overdueCount m) (candidateStartBitTime m) (extrusionCommandedAtCandidateStartBit m)
    (lastSyncTime m) (extrusionCommandedSinceLastSync m) (movementMeasuredSinceLastSync m)
    (extrusionCommandedThisSegment m) (movementMeasuredThisSegment m) (sensorValue m)
    (lastMeasurementTime m) (switchOpenMask m) (version m) (lastErrorCode m) (magnitude m)
    (agc m) (sensorError m) (dataReceived m) (wasPrintingAtStartBit m) (haveStartBitData m)
    (synced m) (magneticMonitorState m) (totalExtrusionCommanded m) (totalMovementMeasured m) x
    (maxMovementRatio m) (backwards m).

Definition set_maxMovementRatio (x : float32) (m : Monitor) : Monitor :=
  mkMonitor (mmPerRev m) (minMovementAllowed m) (maxMovementAllowed m)
    (minimumExtrusionCheckLength m) (comparisonEnabled m) (checkNonPrintingMoves m)
    (framingErrorCount m) (parityErrorCount m) (overrunErrorCount m) (polarityErrorCount m)
    (overdueCount m) (candidateStartBitTime m) (extrusionCommandedAtCandidateStartBit m)
    (lastSyncTime m) (extrusionCommandedSinceLastSync m) (movementMeasuredSinceLastSync m)
    (extrusionCommandedThisSegment m) (movementMeasuredThisSegment m) (sensorValue m)
    (lastMeasurementTime m) (switchOpenMask m) (version m) (lastErrorCode m) (magnitude m)
    (agc m) (sensorError m) (dataReceived m) (wasPrintingAtStartBit m) (haveStartBitData m)
    (synced m) (magneticMonitorState m) (totalExtrusionCommanded m) (totalMovementMeasured m)
    (minMovementRatio m) x (backwards m).

Definition set_backwards (x : bool) (m : Monitor) : Monitor :=
  mkMonitor (mmPerRev m) (minMovementAllowed m) (maxMovementAllowed m)
    (minimumExtrusionCheckLength m) (comparisonEnabled m) (checkNonPrintingMoves m)
    (framingErrorCount m) (parityErrorCount m) (overrunErrorCount m) (polarityErrorCount m)
    (overdueCount m) (candidateStartBitTime m) (extrusionCommandedAtCandidateStartBit m)
    (lastSyncTime m) (extrusionCommandedSinceLastSync m) (movementMeasuredSinceLastSync m)
    (extrusionCommandedThisSegment m) (movementMeasuredThisSegment m) (sensorValue m)
    (lastMeasurementTime m) (switchOpenMask m) (version m) (lastErrorCode m) (magnitude m)
    (agc m) (sensorError m) (dataReceived m) (wasPrintingAtStartBit m) (haveStartBitData m)
    (synced m) (magneticMonitorState m) (totalExtrusionCommanded m) (totalMovementMeasured m)
    (minMovementRatio m) (maxMovementRatio m) x.

(** ** What the monitor reads from its collaborators *)

(** One result of [PollReceiveBuffer] other than [incomplete]: a completed
    word, or a framing error. *)
Inductive PollResult : Type :=
  | complete (val : Z)
  | error.

(** One turn of the loop of [HandleIncomingData]: the poll result and what
    [millis()] and [reprap.GetMove().ExtruderPrintingSince()] return there. *)
Record Polled : Type := mkPolled {
  res : PollResult;
  millis : Z;
  ExtruderPrintingSince : Z
}.

(** ** Initialisation *)

Definition Reset (m : Monitor) : Monitor :=
  let m := set_extrusionCommandedThisSegment F32.zero m in
  let m := set_extrusionCommandedSinceLastSync F32.zero m in
  let m := set_movementMeasuredThisSegment F32.zero m in
  let m := set_movementMeasuredSinceLastSync F32.zero m in
  let m := set_magneticMonitorState idle m in
  let m := set_haveStartBitData false m in
  set_synced false m.

Definition Init (m : Monitor) : Monitor :=
  let m := set_dataReceived false m in
  let m := set_sensorValue 0 m in
  let m := set_parityErrorCount 0 m in
  let m := set_framingErrorCount 0 m in
  let m := set_overrunErrorCount 0 m in
  let m := set_polarityErrorCount 0 m in
  let m := set_overdueCount 0 m in
  let m := set_lastMeasurementTime 0 m in
  let m := set_lastErrorCode 0 m in
  let m := set_version 1 m in
  let m := set_magnitude 0 m in
  let m := set_agc 0 m in
  let m := set_backwards false m in
  let m := set_sensorError false m in
  Reset m.

Definition HaveCalibrationData (m : Monitor) : bool :=
  match magneticMonitorState m with
  | calibrating => false
  | _ => F32.gt (totalExtrusionCommanded m) (F32.of_Z 10)
  end.

Definition MeasuredSensitivity (m : Monitor) : float32 :=
  F32.div (totalExtrusionCommanded m) (totalMovementMeasured m).

Section WithLayout.

Variable K : Layout.

(** The constructor.  The members it leaves uninitialised are those of
    [blank]; [monitorType] 4 is the sensor with a switch. *)
Definition construct (blank : Monitor) (monitorType : Z)
    (DefaultMmPerRev DefaultMinMovementAllowed DefaultMaxMovementAllowed
       DefaultMinimumExtrusionCheckLength : float32) : Monitor :=
  let m := set_mmPerRev DefaultMmPerRev blank in
  let m := set_minMovementAllowed DefaultMinMovementAllowed m in
  let m := set_maxMovementAllowed DefaultMaxMovementAllowed m in
  let m := set_minimumExtrusionCheckLength DefaultMinimumExtrusionCheckLength m in
  let m := set_comparisonEnabled false m in
  let m := set_checkNonPrintingMoves false m in
  let m := set_switchOpenMask
             (if monitorType =? 4 then TypeMagnetV1SwitchOpenMask K else 0) m in
  Init m.

(** ** Word decoder *)

(** The parity fold: [data8] after the four xor steps. *)
Definition parity_fold (val : Z) : Z :=
  let data8 := wrap8 (Z.lxor (Z.shiftr val 8) val) in
  let data8 := Z.lxor data8 (Z.shiftr data8 4) in
  let data8 := Z.lxor data8 (Z.shiftr data8 2) in
  Z.lxor data8 (Z.shiftr data8 1).

(** The body of [if (res == PollResult::complete)]: classifies [val], updates
    the sensor state and returns [receivedPositionReport]. *)
Definition DecodeWord (val : Z) (m : Monitor) : Monitor * bool :=
  let data8 := parity_fold val in
  if version m =? 1 then
    if (Z.land data8 1 =? 0) && (Z.land val 0x7F00 =? 0x6000) && (2 <=? Z.land val 0x00FF)
    then
      let m := set_version (Z.land val 0x00FF) m in
      let m := if negb (switchOpenMask m =? 0)
               then set_switchOpenMask (TypeMagnetV2SwitchOpenMask K) m else m in
      (m, false)
    else if val =? TypeMagnetV1ErrorMask K then
      let m := set_sensorError true m in
      let m := set_lastErrorCode 0 m in
      (m, false)
    else if Z.land val 0xBC00 =? 0 then
      let m := set_dataReceived true m in
      let m := set_sensorError false m in
      (m, true)
    else (m, false)
  else if negb (Z.land data8 1 =? 0) then
    (set_parityErrorCount (wrap32 (parityErrorCount m + 1)) m, false)
  else
    let msgType := Z.land val (TypeMagnetV2MessageTypeMask K) in
    if msgType =? TypeMagnetV2MessageTypePosition K then
      let m := set_dataReceived true m in
      let m := set_sensorError false m in
      (m, true)
    else if msgType =? TypeMagnetV2MessageTypeError K then
      let m := set_lastErrorCode (Z.land val 0x00FF) m in
      let m := set_sensorError (negb (lastErrorCode m =? 0)) m in
      (m, false)
    else if msgType =? TypeMagnetV2MessageTypeInfo K then
      let infoType := Z.land val (TypeMagnetV2InfoTypeMask K) in
      if infoType =? TypeMagnetV2InfoTypeVersion K then
        (set_version (Z.land val 0x00FF) m, false)
      else if infoType =? TypeMagnetV3InfoTypeMagnitude K then
        (set_magnitude (Z.land val 0x00FF) m, false)
      else if infoType =? TypeMagnetV3InfoTypeAgc K then
        (set_agc (Z.land val 0x00FF) m, false)
      else (m, false)
    else (m, false).

(** ** Angle tracker *)

(** [angleChange]: [(val - sensorValue) & TypeMagnetAngleMask], the operands
    promoted to [int], the result stored in a [uint16_t]. *)
Definition angleChange (val sensorValue : Z) : Z :=
  wrap16 (Z.land (val - sensorValue) (TypeMagnetAngleMask K)).

Definition movement_of (angleChange : Z) : Z :=
  if angleChange <=? 512 then angleChange else angleChange - 1024.

(** Lines 307 to 311: the movement of a position report. *)
Definition TrackAngle (val now : Z) (m : Monitor) : Monitor :=
  let movement := movement_of (angleChange val (sensorValue m)) in
  let m := set_movementMeasuredSinceLastSync
             (F32.add (movementMeasuredSinceLastSync m)
                      (F32.div (F32.of_Z movement) (F32.of_Z 1024))) m in
  let m := set_sensorValue val m in
  set_lastMeasurementTime now m.

(** ** Sync engine *)

(** The trust test of the window that ends at this report. *)
Definition canUseMeasurement (printingSince : Z) (m : Monitor) : bool :=
  checkNonPrintingMoves m
  || (wasPrintingAtStartBit m
      && (SyncDelayMillis <=? to_int32 (lastSyncTime m - printingSince))).

(** The body of [if (haveStartBitData)], lines 315 to 329. *)
Definition SyncFence (printingSince : Z) (m : Monitor) : Monitor :=
  let m :=
    if synced m && canUseMeasurement printingSince m then
      let m := set_extrusionCommandedThisSegment
                 (F32.add (extrusionCommandedThisSegment m)
                          (extrusionCommandedAtCandidateStartBit m)) m in
      set_movementMeasuredThisSegment
        (F32.add (movementMeasuredThisSegment m) (movementMeasuredSinceLastSync m)) m
    else m in
  let m := set_lastSyncTime (candidateStartBitTime m) m in
  let m := set_extrusionCommandedSinceLastSync
             (F32.sub (extrusionCommandedSinceLastSync m)
                      (extrusionCommandedAtCandidateStartBit m)) m in
  let m := set_movementMeasuredSinceLastSync F32.zero m in
  set_synced (checkNonPrintingMoves m || wasPrintingAtStartBit m) m.

(** The body of [if (receivedPositionReport)]. *)
Definition PositionReport (val : Z) (p : Polled) (m : Monitor) : Monitor :=
  let m := TrackAngle val (millis p) m in
  if haveStartBitData m then SyncFence (ExtruderPrintingSince p) m else m.

(** One turn of the loop of [HandleIncomingData]. *)
Definition HandlePolled (p : Polled) (m : Monitor) : Monitor :=
  let m :=
    match res p with
    | complete val =>
        let '(m, receivedPositionReport) := DecodeWord val m in
        if receivedPositionReport then PositionReport val p m else m
    | error => set_framingErrorCount (wrap32 (framingErrorCount m + 1)) m
    end in
  set_haveStartBitData false m.

(** The loop runs until [PollReceiveBuffer] returns [incomplete]: [polled] is
    what it returned before that. *)
Definition HandleIncomingData (polled : list Polled) (m : Monitor) : Monitor :=
  fold_left (fun m p => HandlePolled p m) polled m.

(** ** Calibration and comparison *)

(** The verdict on a ratio scaled to a fraction of the expected movement. *)
Definition ratioVerdict (ratio : float32) (m : Monitor) : FilamentSensorStatus.t :=
  if F32.lt ratio (minMovementAllowed m) then FilamentSensorStatus.tooLittleMovement
  else if F32.gt ratio (maxMovementAllowed m) then FilamentSensorStatus.tooMuchMovement
  else FilamentSensorStatus.ok.

Definition CheckFilament (amountCommanded amountMeasured : float32) (overdue : bool)
    (m : Monitor) : FilamentSensorStatus.t * Monitor :=
  if negb (dataReceived m) then (FilamentSensorStatus.noDataReceived, m)
  else
    match magneticMonitorState m with
    | idle =>
        let m := set_magneticMonitorState calibrating m in
        let m := set_totalExtrusionCommanded amountCommanded m in
        let m := set_totalMovementMeasured amountMeasured m in
        (FilamentSensorStatus.ok, m)
    | calibrating =>
        let m := set_totalExtrusionCommanded
                   (F32.add (totalExtrusionCommanded m) amountCommanded) m in
        let m := set_totalMovementMeasured
                   (F32.add (totalMovementMeasured m) amountMeasured) m in
        if F32.ge (totalExtrusionCommanded m) (F32.of_Z 10) then
          let m := set_backwards (F32.lt (totalMovementMeasured m) F32.zero) m in
          let m := if backwards m
                   then set_totalMovementMeasured (F32.neg (totalMovementMeasured m)) m
                   else m in
          let ratio := F32.div (totalMovementMeasured m) (totalExtrusionCommanded m) in
          let m := set_maxMovementRatio ratio m in
          let m := set_minMovementRatio ratio m in
          let ret := if comparisonEnabled m
                     then ratioVerdict (F32.mul ratio (mmPerRev m)) m
                     else FilamentSensorStatus.ok in
          (ret, set_magneticMonitorState comparing m)
        else (FilamentSensorStatus.ok, m)
    | comparing =>
        let m := set_totalExtrusionCommanded
                   (F32.add (totalExtrusionCommanded m) amountCommanded) m in
        let amountMeasured := if backwards m then F32.neg amountMeasured
                              else amountMeasured in
        let m := set_totalMovementMeasured
                   (F32.add (totalMovementMeasured m) amountMeasured) m in
        let ratio := F32.div amountMeasured amountCommanded in
        let m := if F32.gt ratio (maxMovementRatio m) then set_maxMovementRatio ratio m
                 else if F32.lt ratio (minMovementRatio m) then set_minMovementRatio ratio m
                 else m in
        let ret := if comparisonEnabled m
                   then ratioVerdict (F32.mul ratio (mmPerRev m)) m
                   else FilamentSensorStatus.ok in
        (ret, m)
    end.

(** ** The periodic check *)

(** What one call of [Check] reads from the receive buffer of the base class
    and from the clock: [IsWaitingForStartBit()] before the buffer is polled,
    the poll results, then [millis()] and [IsReceiving()] at the overdue test. *)
Record Receiver : Type := mkReceiver {
  IsWaitingForStartBit : bool;
  polled : list Polled;
  nowMillis : Z;
  IsReceiving : bool
}.

(** Steps 1 to 3 of [Check]: account for the extrusion, store the start bit
    data, process the receive buffer. *)
Definition CheckGather (isPrinting fromIsr : bool) (isrMillis : Z)
    (filamentConsumed : float32) (r : Receiver) (m : Monitor) : Monitor :=
  let m := set_extrusionCommandedSinceLastSync
             (F32.add (extrusionCommandedSinceLastSync m) filamentConsumed) m in
  let m :=
    if fromIsr && IsWaitingForStartBit r then
      let m := set_extrusionCommandedAtCandidateStartBit
                 (extrusionCommandedSinceLastSync m) m in
      let m := set_wasPrintingAtStartBit isPrinting m in
      let m := set_candidateStartBitTime isrMillis m in
      set_haveStartBitData true m
    else m in
  HandleIncomingData (polled r) m.

Definition switchOpen (m : Monitor) : bool :=
  negb (Z.land (sensorValue m) (switchOpenMask m) =? 0).

(** The condition of the last branch of step 4: a sync is overdue. *)
Definition syncOverdue (r : Receiver) (m : Monitor) : bool :=
  F32.ge (F32.add (extrusionCommandedThisSegment m) (extrusionCommandedSinceLastSync m))
         (F32.mul (minimumExtrusionCheckLength m) (F32.of_Z 3))
  && (500 <? wrap32 (nowMillis r - lastMeasurementTime m))
  && negb (IsReceiving r).

(** Step 4 of [Check]: [ret] and the monitor after it. *)
Definition CheckDecide (r : Receiver) (m : Monitor) : FilamentSensorStatus.t * Monitor :=
  if sensorError m then (FilamentSensorStatus.sensorError, m)
  else if switchOpen m then (FilamentSensorStatus.noFilament, m)
  else if F32.ge (extrusionCommandedThisSegment m) (minimumExtrusionCheckLength m) then
    let '(ret, m) := CheckFilament (extrusionCommandedThisSegment m)
                                   (movementMeasuredThisSegment m) false m in
    let m := set_movementMeasuredThisSegment F32.zero m in
    let m := set_extrusionCommandedThisSegment F32.zero m in
    (ret, m)
  else if syncOverdue r m then
    let '(ret, m) :=
      CheckFilament
        (F32.add (extrusionCommandedThisSegment m) (extrusionCommandedSinceLastSync m))
        (F32.add (movementMeasuredThisSegment m) (movementMeasuredSinceLastSync m))
        true m in
    let m := set_movementMeasuredSinceLastSync F32.zero m in
    let m := set_movementMeasuredThisSegment F32.zero m in
    let m := set_extrusionCommandedSinceLastSync F32.zero m in
    let m := set_extrusionCommandedThisSegment F32.zero m in
    (ret, m)
  else (FilamentSensorStatus.ok, m).

Definition Check (isPrinting fromIsr : bool) (isrMillis : Z) (filamentConsumed : float32)
    (r : Receiver) (m : Monitor) : FilamentSensorStatus.t * Monitor :=
  let m := CheckGather isPrinting fromIsr isrMillis filamentConsumed r m in
  let '(ret, m) := CheckDecide r m in
  (if comparisonEnabled m then ret else FilamentSensorStatus.ok, m).

(** [Clear], called when no file is being printed. *)
Definition Clear (polled : list Polled) (m : Monitor) : FilamentSensorStatus.t * Monitor :=
  let m := Reset m in
  let m := HandleIncomingData polled m in
  (if negb (comparisonEnabled m) then FilamentSensorStatus.ok
   else if negb (dataReceived m) then FilamentSensorStatus.noDataReceived
   else if sensorError m then FilamentSensorStatus.sensorError
   else if switchOpen m then FilamentSensorStatus.noFilament
   else FilamentSensorStatus.ok,
   m).

End WithLayout.

(** ** The behaviour as the specification words it

    Definitions that follow the words of the specification where they differ
    from the code or word it otherwise, to be compared with the code. *)

(** The delta with both words masked to the angle field before the
    subtraction, the difference wrapped into 0..1023. *)
Definition angleChange_masked (val sensorValue : Z) : Z :=
  (Z.land val 0x03FF - Z.land sensorValue 0x03FF) mod 1024.

(** The fence step with both since-last-sync accumulators added to the
    this-segment accumulators when the window is [trusted]. *)
Definition SyncFence_as_specified (trusted : bool) (m : Monitor) : Monitor :=
  let m :=
    if synced m && trusted then
      let m := set_extrusionCommandedThisSegment
                 (F32.add (extrusionCommandedThisSegment m)
                          (extrusionCommandedSinceLastSync m)) m in
      set_movementMeasuredThisSegment
        (F32.add (movementMeasuredThisSegment m) (movementMeasuredSinceLastSync m)) m
    else m in
  let m := set_lastSyncTime (candidateStartBitTime m) m in
  let m := set_extrusionCommandedSinceLastSync
             (F32.sub (extrusionCommandedSinceLastSync m)
                      (extrusionCommandedAtCandidateStartBit m)) m in
  let m := set_movementMeasuredSinceLastSync F32.zero m in
  set_synced (checkNonPrintingMoves m || wasPrintingAtStartBit m) m.

(** The trust test on one start bit: check-all-moves, or a printing move at
    that start bit and at least 10 ms from the printing-move timestamp to it. *)
Definition trusted_at_start_bit (checkAll wasPrinting : bool)
    (startBitTime printingSince : Z) : bool :=
  checkAll || (wasPrinting && (SyncDelayMillis <=? to_int32 (startBitTime - printingSince))).

(** The verdict with the window ratio scaled by the measured sensitivity. *)
Definition verdict_by_measured_sensitivity (ratio : float32) (m : Monitor)
    : FilamentSensorStatus.t :=
  ratioVerdict (F32.mul ratio (MeasuredSensitivity m)) m.

(** ** Auxiliary definitions of the properties *)

Definition half_revolution : float32 := F32.dyadic 1 (-1).

Definition float32_eqb (a b : float32) : bool :=
  match a, b with
  | S754_zero s, S754_zero s' => Bool.eqb s s'
  | S754_infinity s, S754_infinity s' => Bool.eqb s s'
  | S754_nan, S754_nan => true
  | S754_finite s m e, S754_finite s' m' e' => Bool.eqb s s' && Pos.eqb m m' && Z.eqb e e'
  | _, _ => false
  end.

(** A property checked on every integer of [lo, lo + n). *)
Definition check_range (f : Z -> bool) (lo : Z) (n : nat) : bool :=
  forallb f (map (fun i => lo + Z.of_nat i) (seq 0 n)).

(** For one movement: the quotient computed by the code is [movement/1024]
    without rounding, and its magnitude is at most half a revolution. *)
Definition revolutions_exact (movement : Z) : bool :=
  float32_eqb (F32.div (F32.of_Z movement) (F32.of_Z 1024)) (F32.dyadic movement (-10))
  && SFleb (SFabs (F32.dyadic movement (-10))) half_revolution.

(** A comparison window is due at step 4 of [Check]. *)
Definition windowDue (r : Receiver) (m : Monitor) : bool :=
  F32.ge (extrusionCommandedThisSegment m) (minimumExtrusionCheckLength m)
  || syncOverdue r m.

(** The status [CheckFilament] returns for the window that is due. *)
Definition windowStatus (r : Receiver) (m : Monitor) : FilamentSensorStatus.t :=
  if F32.ge (extrusionCommandedThisSegment m) (minimumExtrusionCheckLength m) then
    fst (CheckFilament (extrusionCommandedThisSegment m)
                       (movementMeasuredThisSegment m) false m)
  else
    fst (CheckFilament
           (F32.add (extrusionCommandedThisSegment m) (extrusionCommandedSinceLastSync m))
           (F32.add (movementMeasuredThisSegment m) (movementMeasuredSinceLastSync m))
           true m).

(** The four accumulators of the measurement window are zero. *)
Definition accumulators_zero (m : Monitor) : Prop :=
  extrusionCommandedThisSegment m = F32.zero
  /\ extrusionCommandedSinceLastSync m = F32.zero
  /\ movementMeasuredThisSegment m = F32.zero
  /\ movementMeasuredSinceLastSync m = F32.zero.

(** A sequence of comparison windows [(amountCommanded, amountMeasured)]. *)
Definition CheckFilament_all (windows : list (float32 * float32)) (m : Monitor) : Monitor :=
  fold_left (fun m w => snd (CheckFilament (fst w) (snd w) false m)) windows m.

(** ** Example monitors and runs *)

(** Every member zero or false. *)
Definition blank : Monitor :=
  mkMonitor F32.zero F32.zero F32.zero F32.zero false false 0 0 0 0 0 0 F32.zero 0
    F32.zero F32.zero F32.zero F32.zero 0 0 0 0 0 0 0 false false false false false idle
    F32.zero F32.zero F32.zero F32.zero false.

(** A monitor constructed for [monitorType] with sensitivity 25 mm/rev,
    allowed movement 50% to 150% and check length 3 mm, then configured with
    comparison enabled and the given check-all-moves option; [Configure] ends
    with [Init]. *)
Definition configured (monitorType : Z) (checkAll : bool) : Monitor :=
  let m := construct documented_layout blank monitorType
             (F32.of_Z 25) (F32.dyadic 1 (-1)) (F32.dyadic 3 (-1)) (F32.of_Z 3) in
  Init (set_checkNonPrintingMoves checkAll (set_comparisonEnabled true m)).

(** A call of [Check] from the interrupt of a start bit: nothing is complete
    in the receive buffer yet. *)
Definition startBit (isPrinting : bool) (isrMillis : Z) (filamentConsumed : float32)
    (m : Monitor) : FilamentSensorStatus.t * Monitor :=
  Check documented_layout isPrinting true isrMillis filamentConsumed
        (mkReceiver true [] isrMillis true) m.

(** A call of [Check] from the task, which finds [words] in the receive
    buffer, each polled at time [now]. *)
Definition tick (filamentConsumed : float32) (words : list Z) (now printingSince : Z)
    (m : Monitor) : FilamentSensorStatus.t * Monitor :=
  Check documented_layout true false 0 filamentConsumed
        (mkReceiver false (map (fun w => mkPolled (complete w) now printingSince) words)
                    now false) m.

(** A word polled at time [now]. *)
Definition polledWord (w now printingSince : Z) : Polled :=
  mkPolled (complete w) now printingSince.

(** Under the version 2 rules the decoder takes [val] as a version word. *)
Definition announcesVersion (K : Layout) (val : Z) : bool :=
  let msgType := Z.land val (TypeMagnetV2MessageTypeMask K) in
  (Z.land (parity_fold val) 1 =? 0)
  && negb (msgType =? TypeMagnetV2MessageTypePosition K)
  && negb (msgType =? TypeMagnetV2MessageTypeError K)
  && (msgType =? TypeMagnetV2MessageTypeInfo K)
  && (Z.land val (TypeMagnetV2InfoTypeMask K) =? TypeMagnetV2InfoTypeVersion K).

(** A monitor at version 3: the version word [0x6003] received first. *)
Definition at_version_3 : Monitor :=
  HandleIncomingData documented_layout [polledWord 0x6003 0 0] (configured 3 false).

(** The monitor with check-all-moves configured, after a first fence (start
    bit at 1000, position report at 1010) and a second start bit at 2000:
    2 mm are accounted at that start bit. *)
Definition synced_at_start_bit : Monitor :=
  let m := configured 3 true in
  let m := snd (startBit true 1000 (F32.of_Z 1) m) in
  let m := snd (tick (F32.of_Z 1) [0x0010] 1010 0 m) in
  snd (startBit true 2000 (F32.of_Z 1) m).

(** The same run without check-all-moves; the first start bit is in a
    printing move, the second in a move that is printing or not. *)
Definition fenced_then_start_bit (isPrinting : bool) : Monitor :=
  let m := configured 3 false in
  let m := snd (startBit true 1000 (F32.of_Z 1) m) in
  let m := snd (tick (F32.of_Z 1) [0x0010] 1010 0 m) in
  snd (startBit isPrinting 2000 (F32.of_Z 1) m).

(** The next call of [Check] from the task comes with another 0.5 mm and finds
    the position report of the second start bit; this is the monitor after
    steps 1 to 3 of that call. *)
Definition gathered (printingSince : Z) (m : Monitor) : Monitor :=
  CheckGather documented_layout true false 0 (F32.dyadic 1 (-1))
    (mkReceiver false [polledWord 0x0020 2010 printingSince] 2010 false) m.

(** The monitor on which the position report of [gathered] is processed. *)
Definition before_report (m : Monitor) : Monitor :=
  set_extrusionCommandedSinceLastSync
    (F32.add (extrusionCommandedSinceLastSync m) (F32.dyadic 1 (-1))) m.

(** A monitor in the comparing state: a position report received, then two
    windows of 5 mm and 0.25 revolutions each.  The measured sensitivity is
    20 mm/rev, the configured one 25 mm/rev. *)
Definition calibrated : Monitor :=
  let m := HandleIncomingData documented_layout [polledWord 0x0010 0 0]
             (configured 3 false) in
  let m := snd (CheckFilament (F32.of_Z 5) (F32.dyadic 1 (-2)) false m) in
  snd (CheckFilament (F32.of_Z 5) (F32.dyadic 1 (-2)) false m).


(** ** Further definitions *)

From Stdlib Require Import Btauto.

(** C++ [double], IEEE 754 binary64. *)
Module F64.

Definition prec : Z := 53.
Definition emax : Z := 1024.

Definition of_Z (z : Z) : spec_float := binary_normalize prec emax z 0 false.
Definition mul : spec_float -> spec_float -> spec_float := SFmul prec emax.
Definition div : spec_float -> spec_float -> spec_float := SFdiv prec emax.

End F64.

(** The conversion of a [double] to [float], round to nearest even. *)
Definition float32_of_double (x : spec_float) : float32 :=
  match x with
  | S754_finite s m e => binary_normalize F32.prec F32.emax (cond_Zopp s (Zpos m)) e s
  | _ => x
  end.

(** [GetCurrentPosition]: the wheel angle in degrees.  The product is
    computed in [double] and returned as a [float]. *)
Definition GetCurrentPosition (K : Layout) (m : Monitor) : float32 :=
  float32_of_double
    (F64.mul (F64.of_Z (Z.land (sensorValue m) (TypeMagnetAngleMask K)))
             (F64.div (F64.of_Z 360) (F64.of_Z 1024))).

(** The number of bits set among the 16 bits of a word. *)
Definition bit_count16 (val : Z) : Z :=
  fold_left (fun n i => if Z.testbit val (Z.of_nat i) then n + 1 else n) (seq 0 16) 0.

(** The word passes the parity test of the version 2 rules. *)
Definition parity_ok (val : Z) : bool := Z.land (parity_fold val) 1 =? 0.

(** The movements decoded from the position words [vals], the stored word
    being [sensorValue] at the start. *)
Fixpoint movements (K : Layout) (sensorValue : Z) (vals : list Z) : list Z :=
  match vals with
  | [] => []
  | val :: vals =>
      movement_of (angleChange K val sensorValue) :: movements K val vals
  end.

Definition sum_Z (l : list Z) : Z := fold_right Z.add 0 l.

(** The calls a monitor receives between two configurations. *)
Inductive Call : Type :=
  | CallCheck (isPrinting fromIsr : bool) (isrMillis : Z) (filamentConsumed : float32)
              (r : Receiver)
  | CallClear (polled : list Polled).

Definition call (K : Layout) (m : Monitor) (c : Call) : Monitor :=
  match c with
  | CallCheck isPrinting fromIsr isrMillis filamentConsumed r =>
      snd (Check K isPrinting fromIsr isrMillis filamentConsumed r m)
  | CallClear polled => snd (Clear K polled m)
  end.

Definition calls (K : Layout) (cs : list Call) (m : Monitor) : Monitor :=
  fold_left (call K) cs m.

(** What holds of a monitor as long as no position report has been received. *)
Definition untouched_without_data (m : Monitor) : Prop :=
  dataReceived m = false ->
  sensorValue m = 0
  /\ lastMeasurementTime m = 0
  /\ magneticMonitorState m = idle
  /\ synced m = false
  /\ extrusionCommandedThisSegment m = F32.zero
  /\ movementMeasuredThisSegment m = F32.zero
  /\ movementMeasuredSinceLastSync m = F32.zero.

(** A ratio fault. *)
Definition isRatioFault (s : FilamentSensorStatus.t) : bool :=
  match s with
  | FilamentSensorStatus.tooLittleMovement | FilamentSensorStatus.tooMuchMovement => true
  | _ => false
  end.

(** For one angle: the position computed by the code is [angle * 45/128]
    degrees without rounding, at least 0 and below 360. *)
Definition position_exact (angle : Z) : bool :=
  let degrees :=
    float32_of_double
      (F64.mul (F64.of_Z angle) (F64.div (F64.of_Z 360) (F64.of_Z 1024))) in
  float32_eqb degrees (F32.dyadic (45 * angle) (-7))
  && SFleb F32.zero degrees && SFltb degrees (F32.of_Z 360).

(** The monitor [configured] is [Init] of. *)
Definition before_Init (monitorType : Z) (checkAll : bool) : Monitor :=
  set_checkNonPrintingMoves checkAll
    (set_comparisonEnabled true
       (construct documented_layout blank monitorType
          (F32.of_Z 25) (F32.dyadic 1 (-1)) (F32.dyadic 3 (-1)) (F32.of_Z 3))).

(** The number of framing errors among the items polled. *)
Definition framing_errors (polled : list Polled) : Z :=
  fold_right (fun p n => match res p with error => n + 1 | complete _ => n end) 0 polled.

(** [synced_at_start_bit] when the next call of [Check] comes with no
    extrusion: the monitor on which the position report is processed. *)
Definition before_report_without_extrusion : Monitor :=
  set_extrusionCommandedSinceLastSync
    (F32.add (extrusionCommandedSinceLastSync synced_at_start_bit) F32.zero)
    synced_at_start_bit.
(** The call is a call of [Check]. *)
Definition isCheck (c : Call) : bool :=
  match c with
  | CallCheck _ _ _ _ _ => true
  | CallClear _ => false
  end.

(** A call of [Check] from the task at time [now] with 5 mm more, the words
    [words] in the receive buffer. *)
Definition check5 (words : list Z) (now : Z) : Call :=
  CallCheck true false 0 (F32.of_Z 5)
    (mkReceiver false (map (fun w => polledWord w now 0) words) now false).

(** No file is printing, then a print in which the wheel turns the other
    way: two windows of 10 mm, each forced as overdue, with 32 steps
    backwards in each. *)
Definition reversed_print : list Call :=
  [CallClear []; check5 [0x03F0] 1000; check5 [] 2000; check5 [0x03D0] 3000;
   check5 [] 4000].

(** A monitor that has received a position report and made no comparison. *)
Definition with_data : Monitor :=
  HandleIncomingData documented_layout [polledWord 0x0010 0 0] (configured 3 false).

(** * Properties *)

Arguments F32.add : simpl never.
Arguments F32.sub : simpl never.
Arguments F32.mul : simpl never.
Arguments F32.div : simpl never.
Arguments F32.of_Z : simpl never.
Arguments F32.dyadic : simpl never.
Arguments wrap16 : simpl never.
Arguments wrap32 : simpl never.
Arguments to_int32 : simpl never.

Ltac case_ifs :=
  repeat match goal with
         | |- context [if ?b then _ else _] => destruct b eqn:?
         end.

(** Case analysis on the integer tests of a goal. *)
Ltac case_tests :=
  repeat match goal with
         | |- context [Z.eqb ?a ?b] => destruct (Z.eqb a b) eqn:?
         | |- context [Z.leb ?a ?b] => destruct (Z.leb a b) eqn:?
         end.

(** Members of updated monitors, reduced to members of the monitor updated. *)
Ltac mon_simpl :=
  cbn [mmPerRev minMovementAllowed maxMovementAllowed minimumExtrusionCheckLength
       comparisonEnabled checkNonPrintingMoves framingErrorCount parityErrorCount
       overrunErrorCount polarityErrorCount overdueCount candidateStartBitTime
       extrusionCommandedAtCandidateStartBit lastSyncTime extrusionCommandedSinceLastSync
       movementMeasuredSinceLastSync extrusionCommandedThisSegment
       movementMeasuredThisSegment sensorValue lastMeasurementTime switchOpenMask version
       lastErrorCode magnitude agc sensorError dataReceived wasPrintingAtStartBit
       haveStartBitData synced magneticMonitorState totalExtrusionCommanded
       totalMovementMeasured minMovementRatio maxMovementRatio backwards set_mmPerRev
       set_minMovementAllowed set_maxMovementAllowed set_minimumExtrusionCheckLength
       set_comparisonEnabled set_checkNonPrintingMoves set_framingErrorCount
       set_parityErrorCount set_overrunErrorCount set_polarityErrorCount set_overdueCount
       set_candidateStartBitTime set_extrusionCommandedAtCandidateStartBit set_lastSyncTime
       set_extrusionCommandedSinceLastSync set_movementMeasuredSinceLastSync
       set_extrusionCommandedThisSegment set_movementMeasuredThisSegment set_sensorValue
       set_lastMeasurementTime set_switchOpenMask set_version set_lastErrorCode
       set_magnitude set_agc set_sensorError set_dataReceived set_wasPrintingAtStartBit
       set_haveStartBitData set_synced set_magneticMonitorState set_totalExtrusionCommanded
       set_totalMovementMeasured set_minMovementRatio set_maxMovementRatio set_backwards
       fst snd negb].

(** Case analysis on the innermost tests of the goal. *)
Ltac mon_cases :=
  repeat (mon_simpl;
          match goal with
          | |- context [if ?b then _ else _] =>
              lazymatch b with
              | context [if _ then _ else _] => fail
              | _ => destruct b eqn:?
              end
          end);
  mon_simpl.

(** ** Word decoder *)

Section DecoderProps.
Variable K : Layout.

(** What a position report leaves alone. *)
Lemma PositionReport_sensor_state (val : Z) (p : Polled) (m : Monitor) :
  let m' := PositionReport K val p m in
  sensorError m' = sensorError m /\ lastErrorCode m' = lastErrorCode m
  /\ dataReceived m' = dataReceived m /\ version m' = version m.
Proof.
  unfold PositionReport, SyncFence, TrackAngle. simpl.
  case_ifs; simpl; auto.
Qed.

Lemma DecodeWord_position (val : Z) (m : Monitor) :
  snd (DecodeWord K val m) = true ->
  sensorError (fst (DecodeWord K val m)) = false
  /\ dataReceived (fst (DecodeWord K val m)) = true
  /\ lastErrorCode (fst (DecodeWord K val m)) = lastErrorCode m.
Proof.
  unfold DecodeWord. case_ifs; simpl; intros; try discriminate; auto.
Qed.

(** When the decoder classifies a word as a position report. *)
Lemma DecodeWord_position_iff (val : Z) (m : Monitor) :
  snd (DecodeWord K val m) =
  if version m =? 1 then
    negb ((Z.land (parity_fold val) 1 =? 0) && (Z.land val 0x7F00 =? 0x6000)
          && (2 <=? Z.land val 0x00FF))
    && negb (val =? TypeMagnetV1ErrorMask K)
    && (Z.land val 0xBC00 =? 0)
  else
    (Z.land (parity_fold val) 1 =? 0)
    && (Z.land val (TypeMagnetV2MessageTypeMask K) =? TypeMagnetV2MessageTypePosition K).
Proof.
  unfold DecodeWord. case_tests; reflexivity.
Qed.

(** C9. A word the decoder classifies as a position report, under the
    version 1 rules or the later ones, ends the turn of the loop that polled
    it with the sensor-error flag false and the last error code as it was:
    an error latched by an error word is cleared, its code kept. *)
Theorem position_report_clears_sensorError (p : Polled) (val : Z) (m : Monitor) :
  res p = complete val ->
  snd (DecodeWord K val m) = true ->
  sensorError (HandlePolled K p m) = false
  /\ lastErrorCode (HandlePolled K p m) = lastErrorCode m
  /\ dataReceived (HandlePolled K p m) = true.
Proof.
  intros Hres Hpos.
  destruct (DecodeWord_position val m Hpos) as (He & Hd & Hc).
  unfold HandlePolled. rewrite Hres.
  destruct (DecodeWord K val m) as [m1 b] eqn:E. simpl in *. subst b.
  destruct (PositionReport_sensor_state val p m1) as (H1 & H2 & H3 & _).
  simpl. rewrite H1, H2, H3. auto.
Qed.

(** Every turn of the loop ends with [haveStartBitData = false]. *)
Lemma HandlePolled_haveStartBitData (p : Polled) (m : Monitor) :
  haveStartBitData (HandlePolled K p m) = false.
Proof. reflexivity. Qed.

Lemma HandleIncomingData_app (l1 l2 : list Polled) (m : Monitor) :
  HandleIncomingData K (l1 ++ l2) m = HandleIncomingData K l2 (HandleIncomingData K l1 m).
Proof. unfold HandleIncomingData. apply fold_left_app. Qed.

Lemma HandleIncomingData_last (l : list Polled) (p : Polled) (m : Monitor) :
  HandleIncomingData K (l ++ [p]) m = HandlePolled K p (HandleIncomingData K l m).
Proof. now rewrite HandleIncomingData_app. Qed.

(** C10. Once [HandleIncomingData] has polled anything, a completed word of
    any kind or a framing error, no start-bit candidate is pending. *)
Theorem HandleIncomingData_consumes_candidate (polled : list Polled) (m : Monitor) :
  polled <> [] ->
  haveStartBitData (HandleIncomingData K polled m) = false.
Proof.
  intros Hne. destruct (exists_last Hne) as (l & p & ->).
  rewrite HandleIncomingData_last. apply HandlePolled_haveStartBitData.
Qed.

End DecoderProps.

Lemma position_report_clears_sensorError_witness :
  let m := HandleIncomingData documented_layout [polledWord 0xA003 0 0] at_version_3 in
  sensorError m = true /\ lastErrorCode m = 3
  /\ snd (DecodeWord documented_layout 0x8805 m) = true
  /\ sensorError (HandlePolled documented_layout (polledWord 0x8805 10 0) m) = false
  /\ lastErrorCode (HandlePolled documented_layout (polledWord 0x8805 10 0) m) = 3.
Proof.
  intros m.
  assert (Hpos : snd (DecodeWord documented_layout 0x8805 m) = true)
    by (vm_compute; reflexivity).
  destruct (position_report_clears_sensorError documented_layout
              (polledWord 0x8805 10 0) 0x8805 m eq_refl Hpos) as (H1 & H2 & _).
  split; [ vm_compute; reflexivity | split; [ vm_compute; reflexivity | ] ].
  split; [ exact Hpos | split; [ exact H1 | ] ].
  rewrite H2. vm_compute. reflexivity.
Defined.

Lemma HandleIncomingData_consumes_candidate_witness :
  let m := snd (startBit true 1000 (F32.of_Z 1) (configured 3 false)) in
  haveStartBitData m = true
  /\ haveStartBitData (HandleIncomingData documented_layout [polledWord 0xA003 0 0] m)
     = false.
Proof.
  intros m. split; [ vm_compute; reflexivity | ].
  apply (HandleIncomingData_consumes_candidate documented_layout
           [polledWord 0xA003 0 0] m).
  discriminate.
Defined.

(** ** Angle tracker *)

Lemma float32_eqb_eq (a b : float32) : float32_eqb a b = true -> a = b.
Proof.
  destruct a as [s| s| |s m e], b as [s'| s'| |s' m' e']; simpl; try discriminate;
    try reflexivity.
  - intros H; apply Bool.eqb_prop in H; now subst.
  - intros H; apply Bool.eqb_prop in H; now subst.
  - rewrite !andb_true_iff. intros [[Hs Hm] He].
    apply Bool.eqb_prop in Hs. apply Pos.eqb_eq in Hm. apply Z.eqb_eq in He.
    now subst.
Qed.

Lemma check_range_sound (f : Z -> bool) (lo : Z) (n : nat) :
  check_range f lo n = true ->
  forall z, lo <= z < lo + Z.of_nat n -> f z = true.
Proof.
  unfold check_range. rewrite forallb_forall. intros H z Hz.
  apply H. apply in_map_iff. exists (Z.to_nat (z - lo)). split.
  - rewrite Z2Nat.id; lia.
  - apply in_seq. lia.
Qed.

(** All 1024 movements, one by one. *)
Lemma revolutions_exact_all (movement : Z) :
  -511 <= movement <= 512 -> revolutions_exact movement = true.
Proof.
  intros H. apply (check_range_sound revolutions_exact (-511) 1024).
  - vm_compute. reflexivity.
  - lia.
Qed.

Lemma land_angle_mask (x : Z) : Z.land x 0x03FF = x mod 1024.
Proof.
  change (Z.land x 0x03FF) with (Z.land x (Z.ones 10)). now rewrite Z.land_ones by lia.
Qed.

Lemma movement_of_range (d : Z) : 0 <= d <= 1023 -> -511 <= movement_of d <= 512.
Proof. unfold movement_of. destruct (Z.leb_spec d 512); lia. Qed.

Section AngleTracker.
Variable K : Layout.
Hypothesis angle_mask_10_bits : TypeMagnetAngleMask K = 0x03FF.

Lemma angleChange_mod (val sv : Z) : angleChange K val sv = (val - sv) mod 1024.
Proof.
  unfold angleChange. rewrite angle_mask_10_bits, land_angle_mask.
  unfold wrap16. apply Z.mod_small.
  pose proof (Z.mod_pos_bound (val - sv) 1024). change (2 ^ 16) with 65536. lia.
Qed.

(** C2. For every stored word and every new position word, the delta of the
    code equals the delta of the two words masked to the 10-bit angle field,
    it lies in 0..1023, the movement is the delta if it is at most 512 and the
    delta minus 1024 otherwise, so it lies in [-511, 512]; the since-last-sync
    movement receives [movement/1024], a quotient that is exact in binary32
    and at most half a revolution in magnitude. *)
Theorem TrackAngle_signed_movement (val now : Z) (m : Monitor) :
  let d := angleChange K val (sensorValue m) in
  let movement := movement_of d in
  d = angleChange_masked val (sensorValue m)
  /\ 0 <= d <= 1023
  /\ movement = (if d <=? 512 then d else d - 1024)
  /\ -511 <= movement <= 512
  /\ movementMeasuredSinceLastSync (TrackAngle K val now m)
     = F32.add (movementMeasuredSinceLastSync m)
               (F32.div (F32.of_Z movement) (F32.of_Z 1024))
  /\ F32.div (F32.of_Z movement) (F32.of_Z 1024) = F32.dyadic movement (-10)
  /\ SFleb (SFabs (F32.dyadic movement (-10))) half_revolution = true.
Proof.
  intros d movement.
  assert (Hd : 0 <= d <= 1023).
  { unfold d. rewrite angleChange_mod.
    pose proof (Z.mod_pos_bound (val - sensorValue m) 1024). lia. }
  assert (Hm : -511 <= movement <= 512) by (apply movement_of_range; exact Hd).
  pose proof (revolutions_exact_all movement Hm) as Hx.
  unfold revolutions_exact in Hx. apply andb_true_iff in Hx. destruct Hx as [Hq Hh].
  apply float32_eqb_eq in Hq.
  repeat split; try lia; try assumption; try reflexivity.
  unfold d, angleChange_masked. rewrite angleChange_mod, !land_angle_mask.
  now rewrite <- Zminus_mod.
Qed.

End AngleTracker.

Lemma TrackAngle_signed_movement_witness :
  let m := set_sensorValue 0x03F0 (configured 3 false) in
  TypeMagnetAngleMask documented_layout = 0x03FF
  /\ angleChange documented_layout 0x0010 (sensorValue m) = 32
  /\ movementMeasuredSinceLastSync (TrackAngle documented_layout 0x0010 7 m)
     = F32.add F32.zero (F32.div (F32.of_Z 32) (F32.of_Z 1024)).
Proof.
  intros m.
  pose proof (TrackAngle_signed_movement documented_layout eq_refl 0x0010 7 m) as H.
  cbv zeta in H. destruct H as (_ & _ & _ & _ & H & _).
  split; [ reflexivity | split; [ vm_compute; reflexivity | ] ].
  rewrite H. vm_compute. reflexivity.
Defined.

Lemma land_low_byte_range (x : Z) : 0 <= Z.land x 0x00FF <= 255.
Proof.
  change (Z.land x 0x00FF) with (Z.land x (Z.ones 8)). rewrite Z.land_ones by lia.
  change (2 ^ 8) with 256. pose proof (Z.mod_pos_bound x 256). lia.
Qed.

Section VersionProps.
Variable K : Layout.

Lemma DecodeWord_version (val : Z) (m : Monitor) :
  let m' := fst (DecodeWord K val m) in
  (version m = 1 -> version m' = 1 \/ 2 <= version m' <= 255)
  /\ (version m <> 1 -> announcesVersion K val = true -> version m' = Z.land val 0x00FF)
  /\ (version m' = version m \/ version m' = Z.land val 0x00FF).
Proof.
  pose proof (land_low_byte_range val) as Hb.
  unfold announcesVersion, DecodeWord.
  destruct (Z.eqb_spec (version m) 1) as [E | E].
  - split; [ intros _ | split; [ congruence | ] ].
    + case_tests; simpl; case_tests; simpl; try (left; assumption).
      all: right; rewrite ?Z.leb_le in *; lia.
    + case_tests; simpl; case_tests; simpl; auto.
  - split; [ congruence | split; [ intros _ | ] ].
    + case_tests; simpl; intros; try discriminate; reflexivity.
    + case_tests; simpl; auto.
Qed.

(** C7, as amended. The version is 1 after [Init]. While it is 1, a polled
    item leaves it at 1 or sets it to a value of 2..255.  Once it differs from
    1, a word of even parity that the version 2 rules take as a version word
    sets it to the word's low byte, whatever the current version is; and an
    item changes the version to nothing but the low byte of its word. *)
Theorem version_after_HandlePolled (p : Polled) (m : Monitor) :
  version (Init m) = 1
  /\ (version m = 1 ->
      version (HandlePolled K p m) = 1 \/ 2 <= version (HandlePolled K p m) <= 255)
  /\ (forall val, version m <> 1 -> res p = complete val -> announcesVersion K val = true ->
      version (HandlePolled K p m) = Z.land val 0x00FF)
  /\ (version (HandlePolled K p m) = version m
      \/ exists val, res p = complete val
                     /\ version (HandlePolled K p m) = Z.land val 0x00FF).
Proof.
  split; [ reflexivity | ].
  unfold HandlePolled. destruct (res p) as [val | ] eqn:Hres.
  - destruct (DecodeWord_version val m) as (H1 & H2 & H3).
    destruct (DecodeWord K val m) as [m1 b] eqn:E. simpl in H1, H2, H3.
    assert (Hv : version (set_haveStartBitData false
                   (if b then PositionReport K val p m1 else m1)) = version m1).
    { destruct b; [ | reflexivity ].
      destruct (PositionReport_sensor_state K val p m1) as (_ & _ & _ & Hv). exact Hv. }
    rewrite Hv. repeat split.
    + exact H1.
    + intros val' Hne Heq Ha. injection Heq as <-. auto.
    + destruct H3 as [H3 | H3]; [ left; exact H3 | right; exists val; auto ].
  - simpl. repeat split; auto. intros; discriminate.
Qed.

End VersionProps.

Lemma version_after_HandlePolled_witness :
  version at_version_3 = 3
  /\ announcesVersion documented_layout 0xE002 = true
  /\ version (HandlePolled documented_layout (polledWord 0xE002 0 0) at_version_3)
     = Z.land 0xE002 0x00FF.
Proof.
  split; [ vm_compute; reflexivity | split; [ vm_compute; reflexivity | ] ].
  apply (proj1 (proj2 (proj2
           (version_after_HandlePolled documented_layout (polledWord 0xE002 0 0)
              at_version_3))) 0xE002).
  - vm_compute. discriminate.
  - reflexivity.
  - vm_compute. reflexivity.
Defined.

(** C7, counterexample. At version 3 the version word [0xE002] (even parity,
    low byte 2) sets the version to 2: the stored version decreases. *)
Lemma version_decreases :
  version at_version_3 = 3
  /\ version (HandlePolled documented_layout (polledWord 0xE002 0 0) at_version_3) = 2
  /\ version (HandlePolled documented_layout (polledWord 0xE002 0 0) at_version_3)
     < version at_version_3.
Proof. vm_compute. repeat split. Qed.

(** ** Sync engine *)

Lemma F32_sub_diag (x : float32) :
  (exists s, x = S754_zero s) \/ (exists s m e, x = S754_finite s m e) ->
  F32.sub x x = F32.zero.
Proof.
  intros [[s ->] | (s & m & e & ->)]; unfold F32.sub, SFsub.
  - now destruct s.
  - rewrite Z.sub_diag. reflexivity.
Qed.

Lemma SyncFence_fields (printingSince : Z) (m : Monitor) :
  let use := synced m && canUseMeasurement printingSince m in
  let m' := SyncFence printingSince m in
  extrusionCommandedThisSegment m'
  = (if use then F32.add (extrusionCommandedThisSegment m)
                         (extrusionCommandedAtCandidateStartBit m)
     else extrusionCommandedThisSegment m)
  /\ movementMeasuredThisSegment m'
     = (if use then F32.add (movementMeasuredThisSegment m)
                            (movementMeasuredSinceLastSync m)
        else movementMeasuredThisSegment m)
  /\ lastSyncTime m' = candidateStartBitTime m
  /\ extrusionCommandedSinceLastSync m'
     = F32.sub (extrusionCommandedSinceLastSync m)
               (extrusionCommandedAtCandidateStartBit m)
  /\ movementMeasuredSinceLastSync m' = F32.zero
  /\ synced m' = checkNonPrintingMoves m || wasPrintingAtStartBit m.
Proof.
  unfold SyncFence.
  destruct (synced m && canUseMeasurement printingSince m); simpl; repeat split.
Qed.

Section SyncProps.
Variable K : Layout.

(** C3, as amended. For a position report processed while a start-bit
    candidate is pending: exactly when [synced] is true and either
    check-all-moves is configured, or the printing flag stored with the
    candidate is true and the fence timestamp of the previous sync is at least
    10 ms after the printing-since timestamp, the extrusion commanded at the
    candidate start bit is added to the this-segment extrusion and the
    since-last-sync movement, this report included, to the this-segment
    movement; otherwise both are left as they are.  In all cases the fence
    timestamp becomes the candidate's, the extrusion at the candidate is
    subtracted from the since-last-sync extrusion, the since-last-sync
    movement becomes zero and [synced] becomes check-all-moves or the printing
    flag of the candidate. *)
Theorem PositionReport_fence (val : Z) (p : Polled) (m : Monitor) :
  haveStartBitData m = true ->
  let use := synced m
             && (checkNonPrintingMoves m
                 || (wasPrintingAtStartBit m
                     && (SyncDelayMillis
                         <=? to_int32 (lastSyncTime m - ExtruderPrintingSince p)))) in
  let m' := PositionReport K val p m in
  extrusionCommandedThisSegment m'
  = (if use then F32.add (extrusionCommandedThisSegment m)
                         (extrusionCommandedAtCandidateStartBit m)
     else extrusionCommandedThisSegment m)
  /\ movementMeasuredThisSegment m'
     = (if use then F32.add (movementMeasuredThisSegment m)
                            (movementMeasuredSinceLastSync (TrackAngle K val (millis p) m))
        else movementMeasuredThisSegment m)
  /\ lastSyncTime m' = candidateStartBitTime m
  /\ extrusionCommandedSinceLastSync m'
     = F32.sub (extrusionCommandedSinceLastSync m)
               (extrusionCommandedAtCandidateStartBit m)
  /\ movementMeasuredSinceLastSync m' = F32.zero
  /\ synced m' = checkNonPrintingMoves m || wasPrintingAtStartBit m.
Proof.
  intros Hhave use m'. subst m'. unfold PositionReport.
  change (haveStartBitData (TrackAngle K val (millis p) m)) with (haveStartBitData m).
  rewrite Hhave.
  exact (SyncFence_fields (ExtruderPrintingSince p) (TrackAngle K val (millis p) m)).
Qed.

(** C8, as amended. After a successful sync transfer the since-last-sync
    movement is zero and the since-last-sync extrusion holds the residual: its
    value less the extrusion commanded at the candidate start bit, which went
    to the this-segment extrusion. *)
Theorem sync_transfer_leaves_residual (val : Z) (p : Polled) (m : Monitor) :
  haveStartBitData m = true ->
  synced m = true ->
  canUseMeasurement (ExtruderPrintingSince p) m = true ->
  let m' := PositionReport K val p m in
  movementMeasuredSinceLastSync m' = F32.zero
  /\ extrusionCommandedSinceLastSync m'
     = F32.sub (extrusionCommandedSinceLastSync m)
               (extrusionCommandedAtCandidateStartBit m)
  /\ extrusionCommandedThisSegment m'
     = F32.add (extrusionCommandedThisSegment m)
               (extrusionCommandedAtCandidateStartBit m).
Proof.
  intros Hhave Hsynced Huse m'. subst m'. unfold PositionReport.
  change (haveStartBitData (TrackAngle K val (millis p) m)) with (haveStartBitData m).
  rewrite Hhave.
  destruct (SyncFence_fields (ExtruderPrintingSince p) (TrackAngle K val (millis p) m))
    as (Hseg & _ & _ & Hsince & Hmov & _).
  change (synced (TrackAngle K val (millis p) m)) with (synced m) in Hseg.
  change (canUseMeasurement (ExtruderPrintingSince p) (TrackAngle K val (millis p) m))
    with (canUseMeasurement (ExtruderPrintingSince p) m) in Hseg.
  rewrite Hsynced, Huse in Hseg.
  repeat split; assumption.
Qed.

(** The residual is zero when nothing was accounted after the start bit. *)
Lemma sync_transfer_no_residual (val : Z) (p : Polled) (m : Monitor) :
  haveStartBitData m = true ->
  extrusionCommandedSinceLastSync m = extrusionCommandedAtCandidateStartBit m ->
  (exists s, extrusionCommandedSinceLastSync m = S754_zero s)
  \/ (exists s f e, extrusionCommandedSinceLastSync m = S754_finite s f e) ->
  extrusionCommandedSinceLastSync (PositionReport K val p m) = F32.zero.
Proof.
  intros Hhave Heq Hfin. unfold PositionReport.
  change (haveStartBitData (TrackAngle K val (millis p) m)) with (haveStartBitData m).
  rewrite Hhave.
  destruct (SyncFence_fields (ExtruderPrintingSince p) (TrackAngle K val (millis p) m))
    as (_ & _ & _ & Hsince & _).
  rewrite Hsince. simpl. rewrite <- Heq. now apply F32_sub_diag.
Qed.

End SyncProps.

Lemma PositionReport_fence_witness :
  haveStartBitData (before_report synced_at_start_bit) = true
  /\ extrusionCommandedThisSegment
       (PositionReport documented_layout 0x0020 (polledWord 0x0020 2010 0)
          (before_report synced_at_start_bit))
     = F32.of_Z 2.
Proof.
  assert (Hhave : haveStartBitData (before_report synced_at_start_bit) = true)
    by (vm_compute; reflexivity).
  split; [ exact Hhave | ].
  destruct (PositionReport_fence documented_layout 0x0020 (polledWord 0x0020 2010 0)
              (before_report synced_at_start_bit) Hhave) as (H & _).
  rewrite H. vm_compute. reflexivity.
Defined.

Lemma sync_transfer_leaves_residual_witness :
  haveStartBitData (before_report synced_at_start_bit) = true
  /\ synced (before_report synced_at_start_bit) = true
  /\ canUseMeasurement 0 (before_report synced_at_start_bit) = true
  /\ extrusionCommandedSinceLastSync
       (PositionReport documented_layout 0x0020 (polledWord 0x0020 2010 0)
          (before_report synced_at_start_bit))
     = F32.dyadic 1 (-1).
Proof.
  assert (Hhave : haveStartBitData (before_report synced_at_start_bit) = true)
    by (vm_compute; reflexivity).
  assert (Hsynced : synced (before_report synced_at_start_bit) = true)
    by (vm_compute; reflexivity).
  assert (Huse : canUseMeasurement 0 (before_report synced_at_start_bit) = true)
    by (vm_compute; reflexivity).
  split; [ exact Hhave | split; [ exact Hsynced | split; [ exact Huse | ] ] ].
  destruct (sync_transfer_leaves_residual documented_layout 0x0020
              (polledWord 0x0020 2010 0) (before_report synced_at_start_bit)
              Hhave Hsynced Huse) as (_ & H & _).
  rewrite H. vm_compute. reflexivity.
Defined.

(** The position report of [gathered] is processed on [before_report]. *)
Lemma gathered_is_HandlePolled (printingSince : Z) (m : Monitor) :
  gathered printingSince m
  = HandlePolled documented_layout (polledWord 0x0020 2010 printingSince) (before_report m).
Proof.
  unfold gathered, CheckGather, before_report, HandleIncomingData.
  cbn [polled IsWaitingForStartBit andb fold_left]. reflexivity.
Qed.

(** C8, counterexample. A start bit at which 2 mm were accounted, then a
    task-level check with 0.5 mm more that finds the position report: the
    transfer takes place (2 mm reach the this-segment extrusion) and the
    since-last-sync extrusion is 0.5 mm, not zero. *)
Lemma sync_transfer_residual_not_zero :
  let m := before_report synced_at_start_bit in
  let m' := gathered 0 synced_at_start_bit in
  haveStartBitData m = true /\ synced m = true /\ canUseMeasurement 0 m = true
  /\ extrusionCommandedThisSegment m = F32.zero
  /\ extrusionCommandedThisSegment m' = F32.of_Z 2
  /\ movementMeasuredSinceLastSync m' = F32.zero
  /\ extrusionCommandedSinceLastSync m' = F32.dyadic 1 (-1)
  /\ extrusionCommandedSinceLastSync m' <> F32.zero.
Proof. vm_compute. repeat split. discriminate. Qed.

(** C3, counterexample.  (1) With the fence established and check-all-moves
    configured, 2.5 mm in the since-last-sync extrusion of which 2 mm at the
    candidate start bit: the code adds 2 mm to the this-segment extrusion, the
    specified step 2.5 mm.  (2) Without check-all-moves, the previous start
    bit (time 1000) in a printing move that began at 0, the candidate start
    bit not in a printing move: the test on the previous start bit passes and
    the code transfers nothing.  (3) Both start bits in printing moves, the
    printing move under way since 1500: the test on the candidate start bit
    (time 2000) passes and the code transfers nothing. *)
Lemma sync_fence_differs_from_specified :
  (let m := TrackAngle documented_layout 0x0020 2010 (before_report synced_at_start_bit) in
   haveStartBitData m = true /\ synced m = true /\ checkNonPrintingMoves m = true
   /\ extrusionCommandedSinceLastSync m = F32.dyadic 5 (-1)
   /\ extrusionCommandedThisSegment (SyncFence 0 m) = F32.of_Z 2
   /\ extrusionCommandedThisSegment (SyncFence_as_specified true m) = F32.dyadic 5 (-1))
  /\ (let before := snd (tick (F32.of_Z 1) [0x0010] 1010 0
                           (snd (startBit true 1000 (F32.of_Z 1) (configured 3 false)))) in
      let m := before_report (fenced_then_start_bit false) in
      synced m = true /\ checkNonPrintingMoves m = false
      /\ trusted_at_start_bit false (wasPrintingAtStartBit before) (lastSyncTime before) 0
         = true
      /\ extrusionCommandedThisSegment (gathered 0 (fenced_then_start_bit false))
         = extrusionCommandedThisSegment m)
  /\ (let m := before_report (fenced_then_start_bit true) in
      synced m = true /\ checkNonPrintingMoves m = false
      /\ trusted_at_start_bit false (wasPrintingAtStartBit m) (candidateStartBitTime m) 1500
         = true
      /\ extrusionCommandedThisSegment (gathered 1500 (fenced_then_start_bit true))
         = extrusionCommandedThisSegment m).
Proof. vm_compute. repeat split. Qed.

(** ** Calibration and comparison *)

(** Without data [CheckFilament] does nothing. *)
Lemma CheckFilament_no_data (c a : float32) (overdue : bool) (m : Monitor) :
  dataReceived m = false ->
  CheckFilament c a overdue m = (FilamentSensorStatus.noDataReceived, m).
Proof. intros H. unfold CheckFilament. now rewrite H. Qed.

Lemma ratioVerdict_cases (ratio : float32) (m : Monitor) :
  In (ratioVerdict ratio m)
     [FilamentSensorStatus.ok; FilamentSensorStatus.tooLittleMovement;
      FilamentSensorStatus.tooMuchMovement].
Proof. unfold ratioVerdict. case_ifs; simpl; auto. Qed.

(** With data the status is a verdict on the ratio. *)
Lemma CheckFilament_verdicts (c a : float32) (overdue : bool) (m : Monitor) :
  dataReceived m = true ->
  In (fst (CheckFilament c a overdue m))
     [FilamentSensorStatus.ok; FilamentSensorStatus.tooLittleMovement;
      FilamentSensorStatus.tooMuchMovement].
Proof.
  intros H. unfold CheckFilament, ratioVerdict. rewrite H.
  destruct (magneticMonitorState m); mon_cases; simpl; auto.
Qed.

(** What [CheckFilament] leaves alone. *)
Lemma CheckFilament_frame (c a : float32) (overdue : bool) (m : Monitor) :
  let m' := snd (CheckFilament c a overdue m) in
  comparisonEnabled m' = comparisonEnabled m
  /\ dataReceived m' = dataReceived m
  /\ sensorError m' = sensorError m
  /\ extrusionCommandedThisSegment m' = extrusionCommandedThisSegment m
  /\ extrusionCommandedSinceLastSync m' = extrusionCommandedSinceLastSync m
  /\ movementMeasuredThisSegment m' = movementMeasuredThisSegment m
  /\ movementMeasuredSinceLastSync m' = movementMeasuredSinceLastSync m.
Proof.
  unfold CheckFilament, ratioVerdict.
  destruct (magneticMonitorState m); mon_cases; repeat split.
Qed.

(** In the comparing state the state and the backwards flag stay. *)
Lemma CheckFilament_comparing (c a : float32) (overdue : bool) (m : Monitor) :
  magneticMonitorState m = comparing ->
  magneticMonitorState (snd (CheckFilament c a overdue m)) = comparing
  /\ backwards (snd (CheckFilament c a overdue m)) = backwards m.
Proof.
  intros H. unfold CheckFilament, ratioVerdict. rewrite H.
  mon_cases; split; try reflexivity; assumption.
Qed.

Lemma CheckFilament_all_comparing (windows : list (float32 * float32)) (m : Monitor) :
  magneticMonitorState m = comparing ->
  magneticMonitorState (CheckFilament_all windows m) = comparing
  /\ backwards (CheckFilament_all windows m) = backwards m.
Proof.
  revert m. induction windows as [ | w windows IH]; intros m H; [ now split | ].
  unfold CheckFilament_all. cbn [fold_left].
  destruct (CheckFilament_comparing (fst w) (snd w) false m H) as [Hs Hb].
  destruct (IH _ Hs) as [Hs' Hb'].
  unfold CheckFilament_all in Hs', Hb'. now rewrite Hs', Hb'.
Qed.

(** C6, as amended. With data received and comparison enabled, the status of
    a window in the comparing state is the verdict on the window ratio times
    the configured [mmPerRev], as it is for the window that completes the
    calibration (there on the lifetime ratio); the other windows of the
    calibration are ok. *)
Theorem CheckFilament_scales_by_mmPerRev (c a : float32) (overdue : bool) (m : Monitor) :
  dataReceived m = true ->
  comparisonEnabled m = true ->
  let r := CheckFilament c a overdue m in
  match magneticMonitorState m with
  | idle => fst r = FilamentSensorStatus.ok
  | calibrating =>
      if F32.ge (F32.add (totalExtrusionCommanded m) c) (F32.of_Z 10) then
        fst r = ratioVerdict (F32.mul (minMovementRatio (snd r)) (mmPerRev m)) m
      else fst r = FilamentSensorStatus.ok
  | comparing =>
      fst r = ratioVerdict
                (F32.mul (F32.div (if backwards m then F32.neg a else a) c) (mmPerRev m)) m
  end.
Proof.
  intros Hdata Hen r. subst r. unfold CheckFilament. rewrite Hdata.
  destruct (magneticMonitorState m); mon_simpl.
  - reflexivity.
  - destruct (F32.ge (F32.add (totalExtrusionCommanded m) c) (F32.of_Z 10));
      [ | reflexivity ].
    destruct (F32.lt (F32.add (totalMovementMeasured m) a) F32.zero);
      mon_simpl; rewrite Hen; unfold ratioVerdict; mon_simpl; reflexivity.
  - unfold ratioVerdict. destruct (backwards m); mon_cases; try reflexivity; congruence.
Qed.

Lemma CheckFilament_scales_by_mmPerRev_witness :
  dataReceived calibrated = true
  /\ comparisonEnabled calibrated = true
  /\ fst (CheckFilament (F32.of_Z 4) (F32.dyadic 1 (-2)) false calibrated)
     = ratioVerdict
         (F32.mul (F32.div (F32.dyadic 1 (-2)) (F32.of_Z 4)) (F32.of_Z 25)) calibrated.
Proof.
  assert (Hdata : dataReceived calibrated = true) by (vm_compute; reflexivity).
  assert (Hen : comparisonEnabled calibrated = true) by (vm_compute; reflexivity).
  split; [ exact Hdata | split; [ exact Hen | ] ].
  pose proof (CheckFilament_scales_by_mmPerRev (F32.of_Z 4) (F32.dyadic 1 (-2)) false
                calibrated Hdata Hen) as H.
  cbv zeta in H.
  replace (magneticMonitorState calibrated) with comparing in H
    by (vm_compute; reflexivity).
  rewrite H. vm_compute. reflexivity.
Defined.

(** C6, counterexample. Configured 25 mm/rev with 50% to 150% allowed,
    measured 20 mm/rev; a window of 4 mm and 0.25 revolutions in the comparing
    state.  Scaled by [mmPerRev] the ratio is 1.5625, too much movement, and
    that is the status; scaled by the measured sensitivity, before or after
    the window is added to the totals, it is within the bounds. *)
Lemma comparing_window_not_scaled_by_measured_sensitivity :
  let ratio := F32.div (F32.dyadic 1 (-2)) (F32.of_Z 4) in
  let r := CheckFilament (F32.of_Z 4) (F32.dyadic 1 (-2)) false calibrated in
  magneticMonitorState calibrated = comparing
  /\ dataReceived calibrated = true
  /\ comparisonEnabled calibrated = true
  /\ MeasuredSensitivity calibrated = F32.of_Z 20
  /\ fst r = FilamentSensorStatus.tooMuchMovement
  /\ verdict_by_measured_sensitivity ratio calibrated = FilamentSensorStatus.ok
  /\ verdict_by_measured_sensitivity ratio (snd r) = FilamentSensorStatus.ok.
Proof. vm_compute. repeat split. Qed.

(** ** The periodic check *)

Section CheckProps.
Variable K : Layout.

(** The decoder and the sync engine leave the configuration alone. *)
Lemma HandlePolled_config (p : Polled) (m : Monitor) :
  let m' := HandlePolled K p m in
  comparisonEnabled m' = comparisonEnabled m
  /\ checkNonPrintingMoves m' = checkNonPrintingMoves m
  /\ mmPerRev m' = mmPerRev m
  /\ minMovementAllowed m' = minMovementAllowed m
  /\ maxMovementAllowed m' = maxMovementAllowed m
  /\ minimumExtrusionCheckLength m' = minimumExtrusionCheckLength m.
Proof.
  unfold HandlePolled, DecodeWord, PositionReport, SyncFence, TrackAngle.
  destruct (res p); mon_cases; repeat split.
Qed.

Lemma HandleIncomingData_comparisonEnabled (polled : list Polled) (m : Monitor) :
  comparisonEnabled (HandleIncomingData K polled m) = comparisonEnabled m.
Proof.
  revert m. induction polled as [ | p polled IH]; intros m; [ reflexivity | ].
  unfold HandleIncomingData in *. cbn [fold_left]. rewrite IH.
  apply (HandlePolled_config p m).
Qed.

Lemma CheckGather_comparisonEnabled (isPrinting fromIsr : bool) (isrMillis : Z)
    (filamentConsumed : float32) (r : Receiver) (m : Monitor) :
  comparisonEnabled (CheckGather K isPrinting fromIsr isrMillis filamentConsumed r m)
  = comparisonEnabled m.
Proof.
  unfold CheckGather. rewrite HandleIncomingData_comparisonEnabled.
  destruct (fromIsr && IsWaitingForStartBit r); reflexivity.
Qed.

(** Step 4 in terms of the window that is due. *)
Lemma CheckDecide_status (r : Receiver) (m : Monitor) :
  fst (CheckDecide r m)
  = (if sensorError m then FilamentSensorStatus.sensorError
     else if switchOpen m then FilamentSensorStatus.noFilament
     else if windowDue r m then windowStatus r m
     else FilamentSensorStatus.ok)
  /\ comparisonEnabled (snd (CheckDecide r m)) = comparisonEnabled m.
Proof.
  unfold CheckDecide, windowDue, windowStatus.
  destruct (sensorError m); [ split; reflexivity | ].
  destruct (switchOpen m); [ split; reflexivity | ].
  destruct (F32.ge (extrusionCommandedThisSegment m) (minimumExtrusionCheckLength m)).
  - cbn [orb].
    pose proof (CheckFilament_frame (extrusionCommandedThisSegment m)
                  (movementMeasuredThisSegment m) false m) as (Hc & _).
    destruct (CheckFilament (extrusionCommandedThisSegment m)
                (movementMeasuredThisSegment m) false m) as [ret m2].
    cbn [snd] in Hc. mon_simpl. auto.
  - cbn [orb]. destruct (syncOverdue r m); [ | split; reflexivity ].
    pose proof (CheckFilament_frame
                  (F32.add (extrusionCommandedThisSegment m)
                           (extrusionCommandedSinceLastSync m))
                  (F32.add (movementMeasuredThisSegment m)
                           (movementMeasuredSinceLastSync m)) true m) as (Hc & _).
    destruct (CheckFilament
                (F32.add (extrusionCommandedThisSegment m)
                         (extrusionCommandedSinceLastSync m))
                (F32.add (movementMeasuredThisSegment m)
                         (movementMeasuredSinceLastSync m)) true m) as [ret m2].
    cbn [snd] in Hc. mon_simpl. auto.
Qed.

Lemma windowStatus_no_data (r : Receiver) (m : Monitor) :
  dataReceived m = false -> windowStatus r m = FilamentSensorStatus.noDataReceived.
Proof.
  intros H. unfold windowStatus. rewrite !CheckFilament_no_data by exact H.
  now destruct (F32.ge _ _).
Qed.

Lemma windowStatus_verdicts (r : Receiver) (m : Monitor) :
  dataReceived m = true ->
  In (windowStatus r m)
     [FilamentSensorStatus.ok; FilamentSensorStatus.tooLittleMovement;
      FilamentSensorStatus.tooMuchMovement].
Proof.
  intros H. unfold windowStatus.
  destruct (F32.ge _ _); apply CheckFilament_verdicts; exact H.
Qed.

(** C1, as amended. With [m1] the monitor after the receive buffer has been
    processed: the status of [Check] is ok when comparison is disabled;
    otherwise sensor-error when the sensor-error flag is set, whether or not
    data has been received; otherwise no-filament when the switch-open bit is
    set; otherwise, when a comparison window is due, no-data-received if no
    position report has been received and else the verdict on the ratio (ok,
    too little or too much movement); otherwise ok.  The priority is
    sensor-error > no-filament > no-data > ratio fault > ok. *)
Theorem Check_status_priority (isPrinting fromIsr : bool) (isrMillis : Z)
    (filamentConsumed : float32) (r : Receiver) (m : Monitor) :
  let m1 := CheckGather K isPrinting fromIsr isrMillis filamentConsumed r m in
  fst (Check K isPrinting fromIsr isrMillis filamentConsumed r m)
  = (if negb (comparisonEnabled m) then FilamentSensorStatus.ok
     else if sensorError m1 then FilamentSensorStatus.sensorError
     else if switchOpen m1 then FilamentSensorStatus.noFilament
     else if windowDue r m1 then
       if dataReceived m1 then windowStatus r m1
       else FilamentSensorStatus.noDataReceived
     else FilamentSensorStatus.ok)
  /\ (dataReceived m1 = false
      \/ In (windowStatus r m1)
            [FilamentSensorStatus.ok; FilamentSensorStatus.tooLittleMovement;
             FilamentSensorStatus.tooMuchMovement]).
Proof.
  intros m1. split.
  - unfold Check. fold m1.
    destruct (CheckDecide_status r m1) as [Hs Hc].
    destruct (CheckDecide r m1) as [ret m2]. cbn [fst snd] in *.
    rewrite Hc. unfold m1 at 1. rewrite CheckGather_comparisonEnabled.
    destruct (comparisonEnabled m); cbn [negb]; [ | reflexivity ].
    rewrite Hs. destruct (dataReceived m1) eqn:Hd; [ reflexivity | ].
    now rewrite (windowStatus_no_data r m1 Hd).
  - destruct (dataReceived m1) eqn:Hd; [ right | now left ].
    now apply windowStatus_verdicts.
Qed.

(** C5, as amended. In a check in which, once the receive buffer has been
    processed, no sensor error is flagged, the switch-open bit is clear and
    the this-segment extrusion is not at least the minimum check length: if
    the this-segment plus since-last-sync extrusion is at least three times
    the minimum check length, more than 500 ms have passed since the last
    position report and no reception is in progress, then [CheckFilament] is
    called with the combined extrusion and the combined movement, its status
    is returned when comparison is enabled, and all four accumulators are
    zero afterwards. *)
Theorem Check_sync_overdue (isPrinting fromIsr : bool) (isrMillis : Z)
    (filamentConsumed : float32) (r : Receiver) (m : Monitor) :
  let m1 := CheckGather K isPrinting fromIsr isrMillis filamentConsumed r m in
  let result := Check K isPrinting fromIsr isrMillis filamentConsumed r m in
  let forced :=
    CheckFilament
      (F32.add (extrusionCommandedThisSegment m1) (extrusionCommandedSinceLastSync m1))
      (F32.add (movementMeasuredThisSegment m1) (movementMeasuredSinceLastSync m1))
      true m1 in
  sensorError m1 = false ->
  switchOpen m1 = false ->
  F32.ge (extrusionCommandedThisSegment m1) (minimumExtrusionCheckLength m1) = false ->
  F32.ge (F32.add (extrusionCommandedThisSegment m1) (extrusionCommandedSinceLastSync m1))
         (F32.mul (minimumExtrusionCheckLength m1) (F32.of_Z 3)) = true ->
  500 < wrap32 (nowMillis r - lastMeasurementTime m1) ->
  IsReceiving r = false ->
  fst result = (if comparisonEnabled m then fst forced else FilamentSensorStatus.ok)
  /\ accumulators_zero (snd result)
  /\ magneticMonitorState (snd result) = magneticMonitorState (snd forced)
  /\ totalExtrusionCommanded (snd result) = totalExtrusionCommanded (snd forced)
  /\ totalMovementMeasured (snd result) = totalMovementMeasured (snd forced).
Proof.
  intros m1 result forced Herr Hsw Hseg Hsum Hms Hrx.
  assert (Hdue : syncOverdue r m1 = true).
  { unfold syncOverdue. rewrite Hsum, Hrx. apply Z.ltb_lt in Hms. now rewrite Hms. }
  subst result. unfold Check. fold m1. unfold CheckDecide.
  rewrite Herr, Hsw, Hseg, Hdue. fold forced.
  pose proof (CheckFilament_frame
                (F32.add (extrusionCommandedThisSegment m1)
                         (extrusionCommandedSinceLastSync m1))
                (F32.add (movementMeasuredThisSegment m1)
                         (movementMeasuredSinceLastSync m1)) true m1) as (Hc & _).
  fold forced in Hc. destruct forced as [ret m2]. cbn [snd] in Hc.
  unfold accumulators_zero. mon_simpl. rewrite Hc. unfold m1 at 1.
  rewrite CheckGather_comparisonEnabled. repeat split.
Qed.

End CheckProps.

Lemma Check_sync_overdue_witness :
  let m := snd (tick (F32.of_Z 5) [0x0010] 100 0 (configured 3 false)) in
  let r := mkReceiver false [] 1000 false in
  let result := Check documented_layout true false 0 (F32.of_Z 5) r m in
  fst result = FilamentSensorStatus.ok
  /\ accumulators_zero (snd result)
  /\ magneticMonitorState (snd result) = calibrating
  /\ totalExtrusionCommanded (snd result) = F32.of_Z 10.
Proof.
  intros m r result.
  pose proof (Check_sync_overdue documented_layout true false 0 (F32.of_Z 5) r m) as H.
  cbv zeta in H. fold result in H.
  destruct H as (H1 & H2 & H3 & H4 & _); try (vm_compute; reflexivity).
  rewrite H1, H3, H4. split; [ vm_compute; reflexivity | ].
  split; [ exact H2 | ]. split; vm_compute; reflexivity.
Defined.

(** C1, counterexample. The first word of a version 1 sensor is the error
    word [0x8000] and 10 mm have been commanded: no position report has been
    received, a comparison is overdue, and [Check] returns sensor-error, not
    no-data-received; [Clear] on the same monitor returns no-data-received. *)
Lemma sensor_error_overrides_no_data :
  let r := mkReceiver false [polledWord 0x8000 100 0] 1000 false in
  let m1 := CheckGather documented_layout true false 0 (F32.of_Z 10) r (configured 3 false) in
  let result := Check documented_layout true false 0 (F32.of_Z 10) r (configured 3 false) in
  comparisonEnabled m1 = true
  /\ dataReceived m1 = false
  /\ sensorError m1 = true
  /\ windowDue r m1 = true
  /\ fst result = FilamentSensorStatus.sensorError
  /\ fst (Clear documented_layout [] (snd result)) = FilamentSensorStatus.noDataReceived.
Proof. vm_compute. repeat split. Qed.

(** C5, counterexample. A sensor with a switch reports a position with the
    switch open and 10 mm have been commanded: the this-segment extrusion (0)
    is below the check length (3), the combined extrusion (10) is at least
    three times it, 900 ms have passed since the report and nothing is being
    received; [Check] returns no-filament, the state machine stays idle and
    the since-last-sync extrusion stays 10 mm. *)
Lemma overdue_sync_not_forced_when_switch_open :
  let r := mkReceiver false [polledWord 0x4005 100 0] 1000 false in
  let m1 := CheckGather documented_layout true false 0 (F32.of_Z 10) r (configured 4 false) in
  let result := Check documented_layout true false 0 (F32.of_Z 10) r (configured 4 false) in
  F32.lt (extrusionCommandedThisSegment m1) (minimumExtrusionCheckLength m1) = true
  /\ F32.ge (F32.add (extrusionCommandedThisSegment m1) (extrusionCommandedSinceLastSync m1))
            (F32.mul (minimumExtrusionCheckLength m1) (F32.of_Z 3)) = true
  /\ wrap32 (nowMillis r - lastMeasurementTime m1) = 900
  /\ IsReceiving r = false
  /\ dataReceived m1 = true
  /\ switchOpen m1 = true
  /\ fst result = FilamentSensorStatus.noFilament
  /\ magneticMonitorState (snd result) = idle
  /\ extrusionCommandedSinceLastSync (snd result) = F32.of_Z 10
  /\ extrusionCommandedSinceLastSync (snd result) <> F32.zero.
Proof. vm_compute. repeat split. discriminate. Qed.

(** * Further properties *)

(** ** Parity *)

(** The parity of a count of bits is the xor of the bits. *)
Lemma count_bits_parity (bs : list bool) (n : Z) :
  Z.odd (fold_left (fun n (b : bool) => if b then n + 1 else n) bs n)
  = xorb (Z.odd n) (fold_right xorb false bs).
Proof.
  revert n. induction bs as [ | b bs IH]; intros n; cbn [fold_left fold_right].
  - now rewrite xorb_false_r.
  - rewrite IH. destruct b.
    + rewrite Z.odd_add. change (Z.odd 1) with true. btauto.
    + btauto.
Qed.

Lemma count_bits_map {A : Type} (f : A -> bool) (l : list A) (n : Z) :
  fold_left (fun n i => if f i then n + 1 else n) l n
  = fold_left (fun n (b : bool) => if b then n + 1 else n) (map f l) n.
Proof.
  revert n. induction l as [ | a l IH]; intros n; [ reflexivity | ].
  cbn [map fold_left]. apply IH.
Qed.

Lemma bit_count16_odd (val : Z) :
  Z.odd (bit_count16 val)
  = fold_right xorb false (map (fun i => Z.testbit val (Z.of_nat i)) (seq 0 16)).
Proof.
  unfold bit_count16.
  rewrite (count_bits_map (fun i => Z.testbit val (Z.of_nat i))).
  now rewrite count_bits_parity.
Qed.

(** Bit 0 of the fold is the xor of the 16 bits of the word. *)
Lemma parity_fold_bit0 (val : Z) :
  Z.testbit (parity_fold val) 0
  = fold_right xorb false (map (fun i => Z.testbit val (Z.of_nat i)) (seq 0 16)).
Proof.
  unfold parity_fold, wrap8.
  repeat (rewrite ?Z.lxor_spec, ?Z.shiftr_spec by lia;
          rewrite ?Z.mod_pow2_bits_low by lia).
  rewrite ?Z.lxor_spec, ?Z.shiftr_spec by lia.
  cbn [seq map fold_right Z.of_nat Pos.of_succ_nat Pos.succ Z.add Pos.add].
  btauto.
Qed.

Lemma land_1_b2z (x : Z) : Z.land x 1 = Z.b2z (Z.testbit x 0).
Proof.
  change (Z.land x 1) with (Z.land x (Z.ones 1)). rewrite Z.land_ones by lia.
  now rewrite Z.bit0_mod.
Qed.

Lemma parity_ok_bit0 (val : Z) : parity_ok val = negb (Z.testbit (parity_fold val) 0).
Proof. unfold parity_ok. rewrite land_1_b2z. now destruct (Z.testbit _ 0). Qed.

(** X1. A word passes the parity test exactly when an even number of its 16
    bits are set. *)
Theorem parity_ok_even_bit_count (val : Z) :
  parity_ok val = Z.even (bit_count16 val).
Proof.
  rewrite parity_ok_bit0, parity_fold_bit0, <- bit_count16_odd.
  now rewrite <- Z.negb_odd.
Qed.

(** Flipping one of the 16 bits flips the outcome of the parity test. *)
Lemma parity_ok_flip (val i : Z) :
  0 <= i < 16 -> parity_ok (Z.lxor val (2 ^ i)) = negb (parity_ok val).
Proof.
  intros Hi. rewrite !parity_ok_bit0, !parity_fold_bit0.
  cbn [seq map fold_right Z.of_nat Pos.of_succ_nat Pos.succ].
  rewrite !Z.lxor_spec, !Z.pow2_bits_eqb by lia.
  assert (Hcases : i = 0 \/ i = 1 \/ i = 2 \/ i = 3 \/ i = 4 \/ i = 5 \/ i = 6 \/ i = 7
                   \/ i = 8 \/ i = 9 \/ i = 10 \/ i = 11 \/ i = 12 \/ i = 13 \/ i = 14
                   \/ i = 15) by lia.
  repeat (destruct Hcases as [-> | Hcases]); try subst i; cbn [Z.eqb Pos.eqb]; btauto.
Qed.

Section ParityProps.
Variable K : Layout.

(** X2. Under the version 2 rules a word that passes the parity test and
    arrives with one of its 16 bits flipped is dropped: the turn of the loop
    that polls it counts a parity error, discards the start-bit candidate and
    changes nothing else. *)
Theorem single_bit_error_dropped (val i now printingSince : Z) (m : Monitor) :
  version m <> 1 ->
  parity_ok val = true ->
  0 <= i < 16 ->
  HandlePolled K (mkPolled (complete (Z.lxor val (2 ^ i))) now printingSince) m
  = set_haveStartBitData false
      (set_parityErrorCount (wrap32 (parityErrorCount m + 1)) m).
Proof.
  intros Hv Hok Hi.
  pose proof (parity_ok_flip val i Hi) as Hflip. rewrite Hok in Hflip.
  unfold parity_ok in Hflip. cbn [negb] in Hflip.
  unfold HandlePolled, DecodeWord. cbn [res].
  apply Z.eqb_neq in Hv. rewrite Hv, Hflip. reflexivity.
Qed.

End ParityProps.

Lemma single_bit_error_dropped_witness :
  version at_version_3 <> 1
  /\ parity_ok 0x8805 = true
  /\ parityErrorCount
       (HandlePolled documented_layout (mkPolled (complete (Z.lxor 0x8805 (2 ^ 3))) 5 0)
          at_version_3) = 1.
Proof.
  assert (Hv : version at_version_3 <> 1) by (vm_compute; discriminate).
  assert (Hok : parity_ok 0x8805 = true) by (vm_compute; reflexivity).
  split; [ exact Hv | split; [ exact Hok | ] ].
  rewrite (single_bit_error_dropped documented_layout 0x8805 3 5 0 at_version_3 Hv Hok)
    by lia.
  vm_compute. reflexivity.
Defined.

(** ** Angles *)

Lemma movement_of_congruent (d : Z) : exists k, movement_of d = d + 1024 * k.
Proof.
  unfold movement_of. destruct (d <=? 512); [ exists 0 | exists (-1) ]; lia.
Qed.

Lemma last_cons {A : Type} (a d : A) (l : list A) : last (a :: l) d = last l a.
Proof.
  revert a d. induction l as [ | b l IH]; intros a d; [ reflexivity | ].
  change (last (a :: b :: l) d) with (last (b :: l) d). now rewrite !IH.
Qed.

Lemma position_exact_all (angle : Z) : 0 <= angle < 1024 -> position_exact angle = true.
Proof.
  intros H. apply (check_range_sound position_exact 0 1024).
  - vm_compute. reflexivity.
  - lia.
Qed.

Section AngleProps.
Variable K : Layout.
Hypothesis angle_mask_10_bits : TypeMagnetAngleMask K = 0x03FF.

(** X3. The movements decoded from a sequence of position words add up,
    modulo one revolution of 1024 steps, to the way from the angle stored at
    the start to the angle of the last word. *)
Theorem movements_sum (sensorValue : Z) (vals : list Z) :
  (sensorValue + sum_Z (movements K sensorValue vals)) mod 1024
  = last vals sensorValue mod 1024.
Proof.
  revert sensorValue. induction vals as [ | val vals IH]; intros sv.
  - cbn. now rewrite Z.add_0_r.
  - rewrite last_cons. cbn [movements sum_Z fold_right]. fold (sum_Z (movements K val vals)).
    rewrite <- IH.
    destruct (movement_of_congruent (angleChange K val sv)) as [k Hk].
    rewrite Hk, (angleChange_mod K angle_mask_10_bits).
    assert (Hnz : 1024 <> 0) by lia.
    pose proof (Z.div_mod (val - sv) 1024 Hnz) as Hdm.
    replace (sv + ((val - sv) mod 1024 + 1024 * k + sum_Z (movements K val vals)))
      with (val + sum_Z (movements K val vals) + (k - (val - sv) / 1024) * 1024) by lia.
    apply Z_mod_plus_full.
Qed.

(** X4. Read in the opposite direction a turn gives the opposite movement,
    except the half turn: a delta of 512 steps is read as +512 both ways. *)
Theorem movement_reversed (a b : Z) :
  movement_of (angleChange K b a)
  = if angleChange K a b =? 512 then 512 else - movement_of (angleChange K a b).
Proof.
  rewrite !(angleChange_mod K angle_mask_10_bits). unfold movement_of.
  assert (Hpos : 0 < 1024) by lia.
  pose proof (Z.mod_pos_bound (a - b) 1024 Hpos) as Hab.
  pose proof (Z.mod_pos_bound (b - a) 1024 Hpos) as Hba.
  assert (Hsum : ((a - b) mod 1024 + (b - a) mod 1024) mod 1024 = 0).
  { rewrite <- Z.add_mod by lia. replace (a - b + (b - a)) with 0 by lia. reflexivity. }
  assert (Hcases : (a - b) mod 1024 + (b - a) mod 1024 = 0
                   \/ (a - b) mod 1024 + (b - a) mod 1024 = 1024).
  { apply Z.mod_divide in Hsum; [ | lia ]. destruct Hsum as [q Hq]. lia. }
  destruct (Z.eqb_spec ((a - b) mod 1024) 512) as [E | E];
    destruct (Z.leb_spec ((b - a) mod 1024) 512);
    destruct (Z.leb_spec ((a - b) mod 1024) 512); lia.
Qed.

(** X5. The wheel angle reported in degrees is the 10-bit angle times
    360/1024, computed without rounding; it is at least 0 and below 360. *)
Theorem GetCurrentPosition_degrees (m : Monitor) :
  GetCurrentPosition K m = F32.dyadic (45 * (sensorValue m mod 1024)) (-7)
  /\ SFleb F32.zero (GetCurrentPosition K m) = true
  /\ SFltb (GetCurrentPosition K m) (F32.of_Z 360) = true.
Proof.
  unfold GetCurrentPosition. rewrite angle_mask_10_bits, land_angle_mask.
  assert (Hpos : 0 < 1024) by lia.
  pose proof (Z.mod_pos_bound (sensorValue m) 1024 Hpos) as Hr.
  pose proof (position_exact_all (sensorValue m mod 1024) Hr) as Hx.
  unfold position_exact in Hx. cbv zeta in Hx.
  apply andb_true_iff in Hx. destruct Hx as [Hx Hlt].
  apply andb_true_iff in Hx. destruct Hx as [Heq Hle].
  apply float32_eqb_eq in Heq. repeat split; assumption.
Qed.

End AngleProps.

Lemma movements_sum_witness :
  TypeMagnetAngleMask documented_layout = 0x03FF
  /\ movements documented_layout 1000 [10; 500; 1012; 0x4005] = [34; 490; 512; 17]
  /\ (1000 + sum_Z (movements documented_layout 1000 [10; 500; 1012; 0x4005])) mod 1024
     = 5.
Proof.
  split; [ reflexivity | split; [ vm_compute; reflexivity | ] ].
  rewrite (movements_sum documented_layout eq_refl 1000 [10; 500; 1012; 0x4005]).
  vm_compute. reflexivity.
Defined.

Lemma movement_reversed_witness :
  TypeMagnetAngleMask documented_layout = 0x03FF
  /\ movement_of (angleChange documented_layout 100 612) = 512
  /\ movement_of (angleChange documented_layout 612 100) = 512
  /\ movement_of (angleChange documented_layout 100 90) = 10.
Proof.
  split; [ reflexivity | ].
  split; [ | split; vm_compute; reflexivity ].
  rewrite (movement_reversed documented_layout eq_refl 612 100). vm_compute. reflexivity.
Defined.

Lemma GetCurrentPosition_degrees_witness :
  TypeMagnetAngleMask documented_layout = 0x03FF
  /\ GetCurrentPosition documented_layout (set_sensorValue 0x4200 blank) = F32.of_Z 180.
Proof.
  split; [ reflexivity | ].
  rewrite (proj1 (GetCurrentPosition_degrees documented_layout eq_refl
                    (set_sensorValue 0x4200 blank))).
  vm_compute. reflexivity.
Defined.

(** ** The polling loop *)

Section LoopProps.
Variable K : Layout.

(** What no turn of the loop changes carries over to the whole loop. *)
Lemma HandleIncomingData_frame {A : Type} (f : Monitor -> A) :
  (forall p m, f (HandlePolled K p m) = f m) ->
  forall polled m, f (HandleIncomingData K polled m) = f m.
Proof.
  intros Hf polled. induction polled as [ | p polled IH]; intros m; [ reflexivity | ].
  unfold HandleIncomingData in *. cbn [fold_left]. now rewrite IH.
Qed.

(** The calibration record belongs to [CheckFilament] alone. *)
Lemma HandlePolled_calibration (p : Polled) (m : Monitor) :
  (fun m => (magneticMonitorState m, backwards m, totalExtrusionCommanded m,
             totalMovementMeasured m, minMovementRatio m, maxMovementRatio m))
    (HandlePolled K p m)
  = (magneticMonitorState m, backwards m, totalExtrusionCommanded m,
     totalMovementMeasured m, minMovementRatio m, maxMovementRatio m).
Proof.
  unfold HandlePolled, DecodeWord, PositionReport, SyncFence, TrackAngle.
  destruct (res p); mon_cases; reflexivity.
Qed.

(** Without a start-bit candidate a turn of the loop leaves the fence and the
    window alone, the since-last-sync movement apart. *)
Lemma HandlePolled_no_candidate (p : Polled) (m : Monitor) :
  haveStartBitData m = false ->
  (fun m => (extrusionCommandedThisSegment m, movementMeasuredThisSegment m,
             extrusionCommandedSinceLastSync m, synced m, lastSyncTime m))
    (HandlePolled K p m)
  = (extrusionCommandedThisSegment m, movementMeasuredThisSegment m,
     extrusionCommandedSinceLastSync m, synced m, lastSyncTime m).
Proof.
  intros H. unfold HandlePolled, DecodeWord, PositionReport, TrackAngle.
  destruct (res p); mon_cases; try congruence; reflexivity.
Qed.

Lemma HandleIncomingData_no_candidate (polled : list Polled) (m : Monitor) :
  haveStartBitData m = false ->
  (fun m => (extrusionCommandedThisSegment m, movementMeasuredThisSegment m,
             extrusionCommandedSinceLastSync m, synced m, lastSyncTime m))
    (HandleIncomingData K polled m)
  = (extrusionCommandedThisSegment m, movementMeasuredThisSegment m,
     extrusionCommandedSinceLastSync m, synced m, lastSyncTime m)
  /\ haveStartBitData (HandleIncomingData K polled m) = false.
Proof.
  revert m. induction polled as [ | p polled IH]; intros m H; [ now split | ].
  unfold HandleIncomingData in *. cbn [fold_left].
  destruct (IH (HandlePolled K p m) (HandlePolled_haveStartBitData K p m)) as [IH1 IH2].
  split; [ | exact IH2 ].
  rewrite IH1. now apply HandlePolled_no_candidate.
Qed.

(** After the first turn the this-segment accumulators stay. *)
Lemma HandleIncomingData_one_fence_fields (p : Polled) (polled : list Polled)
    (m : Monitor) :
  extrusionCommandedThisSegment (HandleIncomingData K (p :: polled) m)
  = extrusionCommandedThisSegment (HandlePolled K p m)
  /\ movementMeasuredThisSegment (HandleIncomingData K (p :: polled) m)
     = movementMeasuredThisSegment (HandlePolled K p m).
Proof.
  destruct (HandleIncomingData_no_candidate polled (HandlePolled K p m)
              (HandlePolled_haveStartBitData K p m)) as [H _].
  change (HandleIncomingData K polled (HandlePolled K p m))
    with (HandleIncomingData K (p :: polled) m) in H.
  injection H as H1 H2 _ _ _. auto.
Qed.

(** X6. One call of [HandleIncomingData] moves the fence at most once: only
    the first item polled can consume the start-bit candidate, so the
    this-segment accumulators, the since-last-sync extrusion, [synced] and the
    fence timestamp are after the call what they are after its first turn. *)
Theorem HandleIncomingData_one_fence (p : Polled) (polled : list Polled) (m : Monitor) :
  let m1 := HandlePolled K p m in
  let m' := HandleIncomingData K (p :: polled) m in
  extrusionCommandedThisSegment m' = extrusionCommandedThisSegment m1
  /\ movementMeasuredThisSegment m' = movementMeasuredThisSegment m1
  /\ extrusionCommandedSinceLastSync m' = extrusionCommandedSinceLastSync m1
  /\ synced m' = synced m1
  /\ lastSyncTime m' = lastSyncTime m1.
Proof.
  intros m1 m'.
  destruct (HandleIncomingData_no_candidate polled m1
              (HandlePolled_haveStartBitData K p m)) as [H _].
  change (HandleIncomingData K polled m1) with m' in H.
  injection H as H1 H2 H3 H4 H5. auto.
Qed.

(** ** Clear *)

(** The state and the lifetime extrusion after [Clear]. *)
Lemma Clear_result_fields (polled : list Polled) (m : Monitor) :
  magneticMonitorState (snd (Clear K polled m)) = idle
  /\ totalExtrusionCommanded (snd (Clear K polled m)) = totalExtrusionCommanded m.
Proof.
  unfold Clear. cbn [snd].
  pose proof (HandleIncomingData_frame _ HandlePolled_calibration polled (Reset m)) as Hc.
  cbv beta in Hc. injection Hc as C1 _ C3 _ _ _. now rewrite C1, C3.
Qed.

(** X7. [Clear] returns ok, no-data-received, sensor-error or no-filament,
    never a ratio fault.  After it the state machine is idle, the fence is
    not established, no start-bit candidate is pending, the this-segment
    accumulators and the since-last-sync extrusion are zero, whatever was in
    the receive buffer; the lifetime totals, the extreme ratios and the
    backwards flag are those of before. *)
Theorem Clear_result (polled : list Polled) (m : Monitor) :
  let status := fst (Clear K polled m) in
  let m' := snd (Clear K polled m) in
  In status [FilamentSensorStatus.ok; FilamentSensorStatus.noDataReceived;
             FilamentSensorStatus.sensorError; FilamentSensorStatus.noFilament]
  /\ magneticMonitorState m' = idle
  /\ synced m' = false
  /\ haveStartBitData m' = false
  /\ extrusionCommandedThisSegment m' = F32.zero
  /\ movementMeasuredThisSegment m' = F32.zero
  /\ extrusionCommandedSinceLastSync m' = F32.zero
  /\ totalExtrusionCommanded m' = totalExtrusionCommanded m
  /\ totalMovementMeasured m' = totalMovementMeasured m
  /\ minMovementRatio m' = minMovementRatio m
  /\ maxMovementRatio m' = maxMovementRatio m
  /\ backwards m' = backwards m.
Proof.
  intros status m'. subst status m'. unfold Clear. cbn [fst snd].
  destruct (HandleIncomingData_no_candidate polled (Reset m) eq_refl) as [Hw Hh].
  pose proof (HandleIncomingData_frame _ HandlePolled_calibration polled (Reset m)) as Hc.
  cbv beta in Hw, Hc.
  injection Hw as H1 H2 H3 H4 _. injection Hc as C1 C2 C3 C4 C5 C6.
  split.
  - case_ifs; simpl; auto.
  - rewrite C1, C2, C3, C4, C5, C6, H1, H2, H3, H4, Hh. repeat split.
Qed.

(** X8. The first comparison after [Clear] starts the calibration afresh:
    with data received, it leaves the state machine calibrating with the
    window as lifetime totals, whatever the totals were.  Until then
    [HaveCalibrationData] still answers on the totals of before. *)
Theorem calibration_restarts_after_Clear (polled : list Polled) (c a : float32)
    (overdue : bool) (m : Monitor) :
  let m1 := snd (Clear K polled m) in
  dataReceived m1 = true ->
  let m2 := snd (CheckFilament c a overdue m1) in
  HaveCalibrationData m1 = F32.gt (totalExtrusionCommanded m) (F32.of_Z 10)
  /\ magneticMonitorState m2 = calibrating
  /\ totalExtrusionCommanded m2 = c
  /\ totalMovementMeasured m2 = a.
Proof.
  intros m1 Hdata m2.
  destruct (Clear_result_fields polled m) as (Hs & Ht).
  fold m1 in Hs, Ht. split.
  - unfold HaveCalibrationData. now rewrite Hs, Ht.
  - subst m2. unfold CheckFilament. rewrite Hdata, Hs. mon_simpl. auto.
Qed.

End LoopProps.

Lemma calibration_restarts_after_Clear_witness :
  dataReceived (snd (Clear documented_layout [] calibrated)) = true
  /\ totalExtrusionCommanded calibrated = F32.of_Z 10
  /\ totalExtrusionCommanded
       (snd (CheckFilament (F32.of_Z 3) (F32.dyadic 1 (-3)) false
               (snd (Clear documented_layout [] calibrated)))) = F32.of_Z 3.
Proof.
  assert (Hdata : dataReceived (snd (Clear documented_layout [] calibrated)) = true)
    by (vm_compute; reflexivity).
  split; [ exact Hdata | split; [ vm_compute; reflexivity | ] ].
  exact (proj1 (proj2 (proj2
           (calibration_restarts_after_Clear documented_layout [] (F32.of_Z 3)
              (F32.dyadic 1 (-3)) false calibrated Hdata)))).
Defined.

(** ** Before the first position report *)

Section DataProps.
Variable K : Layout.

(** A turn of the loop that leaves [dataReceived] false has processed no
    position report. *)
Lemma HandlePolled_without_data (p : Polled) (m : Monitor) :
  dataReceived (HandlePolled K p m) = false ->
  dataReceived m = false
  /\ sensorValue (HandlePolled K p m) = sensorValue m
  /\ lastMeasurementTime (HandlePolled K p m) = lastMeasurementTime m
  /\ magneticMonitorState (HandlePolled K p m) = magneticMonitorState m
  /\ synced (HandlePolled K p m) = synced m
  /\ extrusionCommandedThisSegment (HandlePolled K p m) = extrusionCommandedThisSegment m
  /\ movementMeasuredThisSegment (HandlePolled K p m) = movementMeasuredThisSegment m
  /\ movementMeasuredSinceLastSync (HandlePolled K p m) = movementMeasuredSinceLastSync m.
Proof.
  unfold HandlePolled, DecodeWord, PositionReport, SyncFence, TrackAngle.
  destruct (res p); mon_cases; intros H; try discriminate; repeat split; auto.
Qed.

Lemma HandlePolled_dataReceived (p : Polled) (m : Monitor) :
  dataReceived m = true -> dataReceived (HandlePolled K p m) = true.
Proof.
  intros H. destruct (dataReceived (HandlePolled K p m)) eqn:E; [ reflexivity | ].
  apply HandlePolled_without_data in E. destruct E as [E _]. congruence.
Qed.

Lemma HandleIncomingData_without_data (polled : list Polled) (m : Monitor) :
  untouched_without_data m -> untouched_without_data (HandleIncomingData K polled m).
Proof.
  revert m. induction polled as [ | p polled IH]; intros m Hm; [ exact Hm | ].
  unfold HandleIncomingData in *. cbn [fold_left]. apply IH.
  intros Hd.
  destruct (HandlePolled_without_data p m Hd) as (Hd0 & E1 & E2 & E3 & E4 & E5 & E6 & E7).
  rewrite E1, E2, E3, E4, E5, E6, E7. auto.
Qed.

Lemma HandleIncomingData_dataReceived (polled : list Polled) (m : Monitor) :
  dataReceived m = true -> dataReceived (HandleIncomingData K polled m) = true.
Proof.
  revert m. induction polled as [ | p polled IH]; intros m H; [ exact H | ].
  unfold HandleIncomingData in *. cbn [fold_left].
  apply IH. now apply HandlePolled_dataReceived.
Qed.

Lemma CheckGather_without_data (isPrinting fromIsr : bool) (isrMillis : Z)
    (filamentConsumed : float32) (r : Receiver) (m : Monitor) :
  untouched_without_data m ->
  untouched_without_data (CheckGather K isPrinting fromIsr isrMillis filamentConsumed r m).
Proof.
  intros Hm. unfold CheckGather. apply HandleIncomingData_without_data.
  unfold untouched_without_data in *.
  destruct (fromIsr && IsWaitingForStartBit r); mon_simpl; exact Hm.
Qed.

Lemma CheckGather_dataReceived (isPrinting fromIsr : bool) (isrMillis : Z)
    (filamentConsumed : float32) (r : Receiver) (m : Monitor) :
  dataReceived m = true ->
  dataReceived (CheckGather K isPrinting fromIsr isrMillis filamentConsumed r m) = true.
Proof.
  intros H. unfold CheckGather. apply HandleIncomingData_dataReceived.
  destruct (fromIsr && IsWaitingForStartBit r); mon_simpl; exact H.
Qed.

Lemma CheckDecide_dataReceived (r : Receiver) (m : Monitor) :
  dataReceived (snd (CheckDecide r m)) = dataReceived m.
Proof.
  unfold CheckDecide.
  destruct (sensorError m); [ reflexivity | ].
  destruct (switchOpen m); [ reflexivity | ].
  destruct (F32.ge _ _).
  - match goal with |- context [CheckFilament ?c ?a ?o m] =>
      pose proof (CheckFilament_frame c a o m) as (_ & Hd & _);
      destruct (CheckFilament c a o m) as [ret m2] end.
    cbn [snd] in Hd. mon_simpl. exact Hd.
  - destruct (syncOverdue r m); [ | reflexivity ].
    match goal with |- context [CheckFilament ?c ?a ?o m] =>
      pose proof (CheckFilament_frame c a o m) as (_ & Hd & _);
      destruct (CheckFilament c a o m) as [ret m2] end.
    cbn [snd] in Hd. mon_simpl. exact Hd.
Qed.

Lemma CheckDecide_without_data (r : Receiver) (m : Monitor) :
  untouched_without_data m -> untouched_without_data (snd (CheckDecide r m)).
Proof.
  intros Hm Hd. rewrite CheckDecide_dataReceived in Hd.
  specialize (Hm Hd). revert Hm. unfold CheckDecide.
  rewrite !(CheckFilament_no_data _ _ _ m Hd).
  case_ifs; mon_simpl; intuition auto.
Qed.

Lemma Check_snd (isPrinting fromIsr : bool) (isrMillis : Z) (filamentConsumed : float32)
    (r : Receiver) (m : Monitor) :
  snd (Check K isPrinting fromIsr isrMillis filamentConsumed r m)
  = snd (CheckDecide r (CheckGather K isPrinting fromIsr isrMillis filamentConsumed r m)).
Proof. unfold Check. now destruct (CheckDecide r _). Qed.

Lemma call_without_data (c : Call) (m : Monitor) :
  untouched_without_data m -> untouched_without_data (call K m c).
Proof.
  intros Hm. destruct c as [isPrinting fromIsr isrMillis fc r | polled]; cbn [call].
  - rewrite Check_snd. now apply CheckDecide_without_data, CheckGather_without_data.
  - unfold Clear. cbn [snd]. apply HandleIncomingData_without_data.
    intros Hd. change (dataReceived (Reset m)) with (dataReceived m) in Hd.
    destruct (Hm Hd) as (H1 & H2 & _). unfold Reset. mon_simpl. auto 10.
Qed.

Lemma call_dataReceived (c : Call) (m : Monitor) :
  dataReceived m = true -> dataReceived (call K m c) = true.
Proof.
  intros H. destruct c as [isPrinting fromIsr isrMillis fc r | polled]; cbn [call].
  - rewrite Check_snd, CheckDecide_dataReceived. now apply CheckGather_dataReceived.
  - unfold Clear. cbn [snd]. now apply HandleIncomingData_dataReceived.
Qed.

(** The status of [Check] by cases, with [m1] the monitor after step 3. *)
Lemma Check_status_cases (isPrinting fromIsr : bool) (isrMillis : Z)
    (filamentConsumed : float32) (r : Receiver) (m : Monitor) :
  let m1 := CheckGather K isPrinting fromIsr isrMillis filamentConsumed r m in
  fst (Check K isPrinting fromIsr isrMillis filamentConsumed r m)
  = (if negb (comparisonEnabled m) then FilamentSensorStatus.ok
     else if sensorError m1 then FilamentSensorStatus.sensorError
     else if switchOpen m1 then FilamentSensorStatus.noFilament
     else if windowDue r m1 then
       if dataReceived m1 then windowStatus r m1
       else FilamentSensorStatus.noDataReceived
     else FilamentSensorStatus.ok)
  /\ (dataReceived m1 = false
      \/ In (windowStatus r m1)
            [FilamentSensorStatus.ok; FilamentSensorStatus.tooLittleMovement;
             FilamentSensorStatus.tooMuchMovement]).
Proof.
  intros m1. split.
  - unfold Check. fold m1.
    destruct (CheckDecide_status r m1) as [Hs Hc].
    destruct (CheckDecide r m1) as [ret m2]. cbn [fst snd] in *.
    rewrite Hc. unfold m1 at 1. rewrite CheckGather_comparisonEnabled.
    destruct (comparisonEnabled m); cbn [negb]; [ | reflexivity ].
    rewrite Hs. destruct (dataReceived m1) eqn:Hd; [ reflexivity | ].
    now rewrite (windowStatus_no_data r m1 Hd).
  - destruct (dataReceived m1) eqn:Hd; [ right | now left ].
    now apply windowStatus_verdicts.
Qed.

Lemma Init_without_data (m0 : Monitor) : untouched_without_data (Init m0).
Proof. intros _. unfold Init, Reset. mon_simpl. auto 10. Qed.

Lemma calls_without_data (cs : list Call) (m : Monitor) :
  untouched_without_data m -> untouched_without_data (calls K cs m).
Proof.
  revert m. induction cs as [ | c cs IH]; intros m Hm; [ exact Hm | ].
  unfold calls in *. cbn [fold_left]. apply IH. now apply call_without_data.
Qed.

(** X9. From [Init] on, whatever calls of [Check] and [Clear] follow and
    whatever they poll: as long as no position report has been received, the
    stored sensor word and the time of the last measurement are 0, the state
    machine is idle, the fence is not established, and the this-segment
    accumulators and the since-last-sync movement are zero. *)
Theorem untouched_until_first_report (cs : list Call) (m0 : Monitor) :
  untouched_without_data (calls K cs (Init m0)).
Proof. apply calls_without_data, Init_without_data. Qed.

(** X10. From [Init] on, [Check] returns no-filament only after a position
    report has been received: before the first report the switch is never
    read as open. *)
Theorem noFilament_needs_data (cs : list Call) (m0 : Monitor)
    (isPrinting fromIsr : bool) (isrMillis : Z) (filamentConsumed : float32)
    (r : Receiver) :
  let result := Check K isPrinting fromIsr isrMillis filamentConsumed r
                  (calls K cs (Init m0)) in
  fst result = FilamentSensorStatus.noFilament ->
  dataReceived (snd result) = true.
Proof.
  intros result Hst. subst result. rewrite Check_snd, CheckDecide_dataReceived.
  set (m1 := CheckGather K isPrinting fromIsr isrMillis filamentConsumed r
               (calls K cs (Init m0))) in *.
  destruct (dataReceived m1) eqn:Hd; [ reflexivity | exfalso ].
  assert (Hinv : untouched_without_data m1)
    by apply CheckGather_without_data, calls_without_data, Init_without_data.
  destruct (Hinv Hd) as (Hsv & _).
  destruct (Check_status_cases isPrinting fromIsr isrMillis filamentConsumed r
              (calls K cs (Init m0))) as [Hs _].
  fold m1 in Hs. rewrite Hs in Hst.
  unfold switchOpen in Hst. rewrite Hsv, Hd in Hst. cbn [Z.land Z.eqb negb] in Hst.
  revert Hst. case_ifs; discriminate.
Qed.

(** X11. Once a position report has been received, no call of [Check] or
    [Clear] returns no-data-received, whatever calls come in between. *)
Theorem no_data_status_only_before_data (cs : list Call) (c : Call) (m : Monitor) :
  dataReceived m = true ->
  match c with
  | CallCheck isPrinting fromIsr isrMillis filamentConsumed r =>
      fst (Check K isPrinting fromIsr isrMillis filamentConsumed r (calls K cs m))
  | CallClear polled => fst (Clear K polled (calls K cs m))
  end <> FilamentSensorStatus.noDataReceived.
Proof.
  intros Hd.
  assert (Hd' : dataReceived (calls K cs m) = true).
  { revert m Hd. induction cs as [ | c' cs IH]; intros m Hd; [ exact Hd | ].
    unfold calls in *. cbn [fold_left]. apply IH. now apply call_dataReceived. }
  destruct c as [isPrinting fromIsr isrMillis fc r | polled].
  - destruct (Check_status_cases isPrinting fromIsr isrMillis fc r (calls K cs m))
      as [Hs Hv].
    rewrite Hs.
    rewrite (CheckGather_dataReceived isPrinting fromIsr isrMillis fc r _ Hd') in *.
    destruct Hv as [Hv | Hv]; [ discriminate | ].
    case_ifs; try discriminate.
    cbn [In] in Hv. intros E. rewrite E in Hv. intuition discriminate.
  - unfold Clear. cbn [fst].
    rewrite (HandleIncomingData_dataReceived polled (Reset (calls K cs m))) .
    + case_ifs; discriminate.
    + exact Hd'.
Qed.

End DataProps.

(** ** Comparison disabled *)

Section EnabledProps.
Variable K : Layout.

Lemma HandlePolled_set_comparisonEnabled (b : bool) (p : Polled) (m : Monitor) :
  HandlePolled K p (set_comparisonEnabled b m)
  = set_comparisonEnabled b (HandlePolled K p m).
Proof.
  unfold HandlePolled, DecodeWord, PositionReport, SyncFence, canUseMeasurement, TrackAngle.
  destruct (res p); mon_cases; reflexivity.
Qed.

Lemma HandleIncomingData_set_comparisonEnabled (b : bool) (polled : list Polled)
    (m : Monitor) :
  HandleIncomingData K polled (set_comparisonEnabled b m)
  = set_comparisonEnabled b (HandleIncomingData K polled m).
Proof.
  revert m. induction polled as [ | p polled IH]; intros m; [ reflexivity | ].
  unfold HandleIncomingData in *. cbn [fold_left].
  now rewrite HandlePolled_set_comparisonEnabled, IH.
Qed.

Lemma CheckGather_set_comparisonEnabled (b isPrinting fromIsr : bool) (isrMillis : Z)
    (filamentConsumed : float32) (r : Receiver) (m : Monitor) :
  CheckGather K isPrinting fromIsr isrMillis filamentConsumed r (set_comparisonEnabled b m)
  = set_comparisonEnabled b
      (CheckGather K isPrinting fromIsr isrMillis filamentConsumed r m).
Proof.
  unfold CheckGather. rewrite <- HandleIncomingData_set_comparisonEnabled.
  destruct (fromIsr && IsWaitingForStartBit r); reflexivity.
Qed.

Lemma CheckFilament_set_comparisonEnabled (b : bool) (c a : float32) (overdue : bool)
    (m : Monitor) :
  snd (CheckFilament c a overdue (set_comparisonEnabled b m))
  = set_comparisonEnabled b (snd (CheckFilament c a overdue m)).
Proof.
  unfold CheckFilament, ratioVerdict.
  destruct (magneticMonitorState m) eqn:E; mon_simpl; rewrite ?E; mon_cases; reflexivity.
Qed.

Lemma CheckDecide_set_comparisonEnabled (b : bool) (r : Receiver) (m : Monitor) :
  snd (CheckDecide r (set_comparisonEnabled b m))
  = set_comparisonEnabled b (snd (CheckDecide r m)).
Proof.
  unfold CheckDecide, switchOpen, syncOverdue. mon_simpl.
  destruct (sensorError m); [ reflexivity | ].
  destruct (negb (Z.land (sensorValue m) (switchOpenMask m) =? 0)); [ reflexivity | ].
  destruct (F32.ge (extrusionCommandedThisSegment m) (minimumExtrusionCheckLength m)).
  - match goal with |- context [CheckFilament ?c ?a ?o (set_comparisonEnabled b m)] =>
      pose proof (CheckFilament_set_comparisonEnabled b c a o m) as H;
      destruct (CheckFilament c a o (set_comparisonEnabled b m)) as [ret1 m1];
      destruct (CheckFilament c a o m) as [ret2 m2] end.
    cbn [snd] in *. subst m1. reflexivity.
  - match goal with |- context [if ?t then _ else _] => destruct t end; [ | reflexivity ].
    match goal with |- context [CheckFilament ?c ?a ?o (set_comparisonEnabled b m)] =>
      pose proof (CheckFilament_set_comparisonEnabled b c a o m) as H;
      destruct (CheckFilament c a o (set_comparisonEnabled b m)) as [ret1 m1];
      destruct (CheckFilament c a o m) as [ret2 m2] end.
    cbn [snd] in *. subst m1. reflexivity.
Qed.

(** X12. The comparison-enabled option changes nothing but the status
    returned: with the option set either way [Check] leaves the same monitor,
    the option apart, so the calibration proceeds while comparison is
    disabled; and with the option off the status is ok. *)
Theorem Check_comparisonEnabled (b isPrinting fromIsr : bool) (isrMillis : Z)
    (filamentConsumed : float32) (r : Receiver) (m : Monitor) :
  snd (Check K isPrinting fromIsr isrMillis filamentConsumed r (set_comparisonEnabled b m))
  = set_comparisonEnabled b
      (snd (Check K isPrinting fromIsr isrMillis filamentConsumed r m))
  /\ fst (Check K isPrinting fromIsr isrMillis filamentConsumed r
            (set_comparisonEnabled false m)) = FilamentSensorStatus.ok.
Proof.
  split.
  - rewrite !Check_snd, CheckGather_set_comparisonEnabled.
    apply CheckDecide_set_comparisonEnabled.
  - destruct (Check_status_cases K isPrinting fromIsr isrMillis filamentConsumed r
                (set_comparisonEnabled false m)) as [Hs _].
    rewrite Hs. reflexivity.
Qed.

End EnabledProps.

(** ** Ratio faults *)

(** X13. [CheckFilament] returns a ratio fault only with comparison enabled
    and data received, and only for a window in the comparing state or for
    the window that completes the calibration. *)
Theorem ratio_fault_conditions (c a : float32) (overdue : bool) (m : Monitor) :
  isRatioFault (fst (CheckFilament c a overdue m)) = true ->
  comparisonEnabled m = true
  /\ dataReceived m = true
  /\ (magneticMonitorState m = comparing
      \/ (magneticMonitorState m = calibrating
          /\ F32.ge (F32.add (totalExtrusionCommanded m) c) (F32.of_Z 10) = true)).
Proof.
  unfold CheckFilament.
  destruct (dataReceived m); cbn [negb]; [ | discriminate ].
  destruct (magneticMonitorState m); mon_simpl.
  - discriminate.
  - destruct (F32.ge (F32.add (totalExtrusionCommanded m) c) (F32.of_Z 10));
      [ | discriminate ].
    destruct (F32.lt (F32.add (totalMovementMeasured m) a) F32.zero); mon_simpl;
      destruct (comparisonEnabled m); try discriminate; auto.
  - mon_cases; try discriminate; auto.
Qed.

Lemma ratio_fault_conditions_witness :
  isRatioFault (fst (CheckFilament (F32.of_Z 4) (F32.dyadic 1 (-2)) false calibrated)) = true
  /\ comparisonEnabled calibrated = true
  /\ magneticMonitorState calibrated = comparing.
Proof.
  assert (H : isRatioFault
                (fst (CheckFilament (F32.of_Z 4) (F32.dyadic 1 (-2)) false calibrated))
              = true) by (vm_compute; reflexivity).
  split; [ exact H | ].
  destruct (ratio_fault_conditions (F32.of_Z 4) (F32.dyadic 1 (-2)) false calibrated H)
    as (He & _ & _).
  split; [ exact He | vm_compute; reflexivity ].
Defined.

Lemma noFilament_needs_data_witness :
  let result := Check documented_layout true false 0 (F32.of_Z 1)
                  (mkReceiver false [polledWord 0x4005 100 0] 100 false)
                  (calls documented_layout [CallClear []] (Init (before_Init 4 false))) in
  fst result = FilamentSensorStatus.noFilament /\ dataReceived (snd result) = true.
Proof.
  intros result.
  assert (H : fst result = FilamentSensorStatus.noFilament) by (vm_compute; reflexivity).
  split; [ exact H | ].
  exact (noFilament_needs_data documented_layout [CallClear []] (before_Init 4 false)
           true false 0 (F32.of_Z 1)
           (mkReceiver false [polledWord 0x4005 100 0] 100 false) H).
Defined.

Lemma no_data_status_only_before_data_witness :
  dataReceived calibrated = true
  /\ fst (Check documented_layout true false 0 (F32.of_Z 10)
            (mkReceiver false [] 5000 false)
            (calls documented_layout [CallClear []] calibrated))
     <> FilamentSensorStatus.noDataReceived.
Proof.
  assert (H : dataReceived calibrated = true) by (vm_compute; reflexivity).
  split; [ exact H | ].
  exact (no_data_status_only_before_data documented_layout [CallClear []]
           (CallCheck true false 0 (F32.of_Z 10) (mkReceiver false [] 5000 false))
           calibrated H).
Defined.

(** ** The extreme ratios *)

Lemma SFltb_asym (a b : spec_float) : SFltb a b = true -> SFltb b a = false.
Proof.
  unfold SFltb, SFcompare.
  destruct a as [sa | sa | | sa ma ea], b as [sb | sb | | sb mb eb];
    try destruct sa; try destruct sb; try discriminate; try reflexivity.
  - rewrite (Z.compare_antisym ea eb). destruct (ea ?= eb); cbn [CompOpp];
      try discriminate; try reflexivity.
    change (Pos.compare_cont Eq mb ma) with (Pos.compare mb ma).
    change (Pos.compare_cont Eq ma mb) with (Pos.compare ma mb).
    rewrite (Pos.compare_antisym ma mb). destruct (ma ?= mb)%positive; cbn [CompOpp];
      try discriminate; reflexivity.
  - rewrite (Z.compare_antisym ea eb). destruct (ea ?= eb); cbn [CompOpp];
      try discriminate; try reflexivity.
    change (Pos.compare_cont Eq mb ma) with (Pos.compare mb ma).
    change (Pos.compare_cont Eq ma mb) with (Pos.compare ma mb).
    rewrite (Pos.compare_antisym ma mb). destruct (ma ?= mb)%positive; cbn [CompOpp];
      try discriminate; reflexivity.
Qed.

Lemma SFltb_irrefl (a : spec_float) : SFltb a a = false.
Proof.
  destruct (SFltb a a) eqn:E; [ | reflexivity ].
  pose proof (SFltb_asym a a E). congruence.
Qed.

(** X14. In the comparing state a window never lowers the maximum ratio nor
    raises the minimum ratio, and it moves at most one of them. *)
Theorem extreme_ratios_monotone (c a : float32) (overdue : bool) (m : Monitor) :
  magneticMonitorState m = comparing ->
  let m' := snd (CheckFilament c a overdue m) in
  F32.lt (maxMovementRatio m') (maxMovementRatio m) = false
  /\ F32.gt (minMovementRatio m') (minMovementRatio m) = false
  /\ (maxMovementRatio m' = maxMovementRatio m \/ minMovementRatio m' = minMovementRatio m).
Proof.
  intros Hs m'. subst m'. unfold CheckFilament, F32.lt, F32.gt. rewrite Hs.
  destruct (dataReceived m); cbn [negb snd];
    [ | rewrite !SFltb_irrefl; auto ].
  destruct (backwards m); mon_simpl.
  all: match goal with |- context [if SFltb ?x ?y then _ else _] =>
         destruct (SFltb x y) eqn:Hgt end; mon_simpl;
       [ rewrite (SFltb_asym _ _ Hgt), SFltb_irrefl; auto | ].
  all: match goal with |- context [if SFltb ?x ?y then _ else _] =>
         destruct (SFltb x y) eqn:Hlt end; mon_simpl;
       [ rewrite (SFltb_asym _ _ Hlt), SFltb_irrefl; auto
       | rewrite !SFltb_irrefl; auto ].
Qed.

Lemma extreme_ratios_monotone_witness :
  magneticMonitorState calibrated = comparing
  /\ maxMovementRatio calibrated = F32.dyadic 13421773 (-28)
  /\ maxMovementRatio (snd (CheckFilament (F32.of_Z 4) (F32.dyadic 1 (-2)) false calibrated))
     = F32.dyadic 1 (-4)
  /\ F32.lt (maxMovementRatio
               (snd (CheckFilament (F32.of_Z 4) (F32.dyadic 1 (-2)) false calibrated)))
            (maxMovementRatio calibrated) = false.
Proof.
  assert (H : magneticMonitorState calibrated = comparing) by (vm_compute; reflexivity).
  split; [ exact H | ].
  split; [ vm_compute; reflexivity | split; [ vm_compute; reflexivity | ] ].
  exact (proj1 (extreme_ratios_monotone (F32.of_Z 4) (F32.dyadic 1 (-2)) false
                  calibrated H)).
Defined.

(** ** Windows that start at an untrusted fence *)

Section FenceProps.
Variable K : Layout.

Lemma HandlePolled_unsynced (p : Polled) (m : Monitor) :
  synced m = false ->
  extrusionCommandedThisSegment (HandlePolled K p m) = extrusionCommandedThisSegment m
  /\ movementMeasuredThisSegment (HandlePolled K p m) = movementMeasuredThisSegment m.
Proof.
  intros H. unfold HandlePolled, DecodeWord, PositionReport, SyncFence, TrackAngle.
  destruct (res p); mon_cases;
    try (rewrite H in *; cbn [andb] in *; discriminate); split; reflexivity.
Qed.

(** X15. A fence set at a start bit outside a printing move, check-all-moves
    not configured, leaves [synced] false; and while [synced] is false no
    call of [Check] brings anything into the this-segment accumulators when
    it processes the receive buffer, whatever it polls: the window that
    starts at such a fence is discarded. *)
Theorem unsynced_window_discarded (val : Z) (p : Polled) (m : Monitor)
    (isPrinting fromIsr : bool) (isrMillis : Z) (filamentConsumed : float32)
    (r : Receiver) :
  haveStartBitData m = true ->
  checkNonPrintingMoves m = false ->
  wasPrintingAtStartBit m = false ->
  let m1 := PositionReport K val p m in
  let m2 := CheckGather K isPrinting fromIsr isrMillis filamentConsumed r m1 in
  synced m1 = false
  /\ extrusionCommandedThisSegment m2 = extrusionCommandedThisSegment m1
  /\ movementMeasuredThisSegment m2 = movementMeasuredThisSegment m1.
Proof.
  intros Hhave Hall Hpr m1 m2.
  assert (Hs : synced m1 = false).
  { subst m1. unfold PositionReport.
    change (haveStartBitData (TrackAngle K val (millis p) m)) with (haveStartBitData m).
    rewrite Hhave.
    destruct (SyncFence_fields (ExtruderPrintingSince p)
                (TrackAngle K val (millis p) m)) as (_ & _ & _ & _ & _ & H).
    rewrite H. mon_simpl. unfold TrackAngle. mon_simpl. now rewrite Hall, Hpr. }
  split; [ exact Hs | ].
  subst m2. unfold CheckGather.
  set (m1' := if fromIsr && IsWaitingForStartBit r then _ else _).
  assert (Hs' : synced m1' = false /\ extrusionCommandedThisSegment m1'
                                      = extrusionCommandedThisSegment m1
                /\ movementMeasuredThisSegment m1' = movementMeasuredThisSegment m1).
  { subst m1'. destruct (fromIsr && IsWaitingForStartBit r); mon_simpl; auto. }
  destruct Hs' as (Hs' & E1 & E2). rewrite <- E1, <- E2.
  destruct (polled r) as [ | p' rest]; [ split; reflexivity | ].
  destruct (HandleIncomingData_one_fence_fields K p' rest m1') as (F1 & F2).
  destruct (HandlePolled_unsynced p' m1' Hs') as (G1 & G2).
  rewrite F1, F2. auto.
Qed.

End FenceProps.

Lemma unsynced_window_discarded_witness :
  let m := before_report (fenced_then_start_bit false) in
  let m1 := PositionReport documented_layout 0x0020 (polledWord 0x0020 2010 0) m in
  let m2 := CheckGather documented_layout true false 0 (F32.of_Z 1)
              (mkReceiver false [polledWord 0x0030 3000 0] 3000 false) m1 in
  haveStartBitData m = true /\ checkNonPrintingMoves m = false
  /\ wasPrintingAtStartBit m = false
  /\ extrusionCommandedThisSegment m2 = extrusionCommandedThisSegment m1.
Proof.
  intros m m1 m2.
  assert (H1 : haveStartBitData m = true) by (vm_compute; reflexivity).
  assert (H2 : checkNonPrintingMoves m = false) by (vm_compute; reflexivity).
  assert (H3 : wasPrintingAtStartBit m = false) by (vm_compute; reflexivity).
  split; [ exact H1 | split; [ exact H2 | split; [ exact H3 | ] ] ].
  exact (proj1 (proj2 (unsynced_window_discarded documented_layout 0x0020
                         (polledWord 0x0020 2010 0) m true false 0 (F32.of_Z 1)
                         (mkReceiver false [polledWord 0x0030 3000 0] 3000 false)
                         H1 H2 H3))).
Defined.

Lemma untouched_until_first_report_witness :
  let m := calls documented_layout
             [CallCheck true false 0 (F32.of_Z 10)
                (mkReceiver false [polledWord 0x8000 100 0] 1000 false);
              CallClear [polledWord 0x6003 200 0]]
             (Init (before_Init 3 false)) in
  dataReceived m = false /\ sensorError m = true /\ version m = 3
  /\ sensorValue m = 0 /\ magneticMonitorState m = idle.
Proof.
  intros m.
  assert (Hd : dataReceived m = false) by (vm_compute; reflexivity).
  destruct (untouched_until_first_report documented_layout
              [CallCheck true false 0 (F32.of_Z 10)
                 (mkReceiver false [polledWord 0x8000 100 0] 1000 false);
               CallClear [polledWord 0x6003 200 0]]
              (before_Init 3 false) Hd) as (H1 & _ & H3 & _).
  split; [ exact Hd | ].
  split; [ vm_compute; reflexivity | split; [ vm_compute; reflexivity | ] ].
  split; [ exact H1 | exact H3 ].
Defined.

(** ** Diagnostics *)

Section CounterProps.
Variable K : Layout.

Lemma HandlePolled_framingErrorCount (p : Polled) (m : Monitor) :
  framingErrorCount (HandlePolled K p m)
  = match res p with
    | error => wrap32 (framingErrorCount m + 1)
    | complete _ => framingErrorCount m
    end.
Proof.
  unfold HandlePolled, DecodeWord, PositionReport, SyncFence, TrackAngle.
  destruct (res p); mon_cases; reflexivity.
Qed.

Lemma framing_errors_nonneg (polled : list Polled) : 0 <= framing_errors polled.
Proof.
  induction polled as [ | p polled IH]; cbn [framing_errors fold_right]; [ lia | ].
  fold (framing_errors polled). destruct (res p); lia.
Qed.

(** X16. One call of [HandleIncomingData] counts every framing error it
    polls, and nothing else, in [framingErrorCount]: the counter is unchanged
    when none is polled, and otherwise advances by their number, modulo
    2^32. *)
Theorem framingErrorCount_counts (polled : list Polled) (m : Monitor) :
  framingErrorCount (HandleIncomingData K polled m)
  = if framing_errors polled =? 0 then framingErrorCount m
    else wrap32 (framingErrorCount m + framing_errors polled).
Proof.
  revert m. induction polled as [ | p polled IH]; intros m; [ reflexivity | ].
  unfold HandleIncomingData in *. cbn [fold_left framing_errors fold_right].
  fold (framing_errors polled). rewrite IH, HandlePolled_framingErrorCount.
  pose proof (framing_errors_nonneg polled) as Hn.
  destruct (res p).
  - reflexivity.
  - destruct (Z.eqb_spec (framing_errors polled) 0) as [E | E];
      destruct (Z.eqb_spec (framing_errors polled + 1) 0) as [E' | E']; try lia.
    + rewrite E. reflexivity.
    + unfold wrap32. rewrite Zplus_mod_idemp_l. f_equal. lia.
Qed.

End CounterProps.

(** ** Sensors without a switch *)

Section SwitchProps.
Variable K : Layout.

Lemma HandlePolled_no_switch (p : Polled) (m : Monitor) :
  switchOpenMask m = 0 -> switchOpenMask (HandlePolled K p m) = 0.
Proof.
  intros H. unfold HandlePolled, DecodeWord, PositionReport, SyncFence, TrackAngle.
  destruct (res p); mon_cases; try assumption.
  all: rewrite H in *; discriminate.
Qed.

Lemma HandleIncomingData_no_switch (polled : list Polled) (m : Monitor) :
  switchOpenMask m = 0 -> switchOpenMask (HandleIncomingData K polled m) = 0.
Proof.
  revert m. induction polled as [ | p polled IH]; intros m H; [ exact H | ].
  unfold HandleIncomingData in *. cbn [fold_left]. now apply IH, HandlePolled_no_switch.
Qed.

Lemma CheckGather_no_switch (isPrinting fromIsr : bool) (isrMillis : Z)
    (filamentConsumed : float32) (r : Receiver) (m : Monitor) :
  switchOpenMask m = 0 ->
  switchOpenMask (CheckGather K isPrinting fromIsr isrMillis filamentConsumed r m) = 0.
Proof.
  intros H. unfold CheckGather. apply HandleIncomingData_no_switch.
  destruct (fromIsr && IsWaitingForStartBit r); mon_simpl; exact H.
Qed.

Lemma CheckFilament_switchOpenMask (c a : float32) (overdue : bool) (m : Monitor) :
  switchOpenMask (snd (CheckFilament c a overdue m)) = switchOpenMask m.
Proof.
  unfold CheckFilament, ratioVerdict.
  destruct (magneticMonitorState m); mon_cases; reflexivity.
Qed.

Lemma call_no_switch (c : Call) (m : Monitor) :
  switchOpenMask m = 0 -> switchOpenMask (call K m c) = 0.
Proof.
  intros H. destruct c as [isPrinting fromIsr isrMillis fc r | polled]; cbn [call].
  - rewrite Check_snd.
    pose proof (CheckGather_no_switch isPrinting fromIsr isrMillis fc r m H) as Hg.
    set (m1 := CheckGather K isPrinting fromIsr isrMillis fc r m) in *.
    unfold CheckDecide.
    destruct (sensorError m1); [ exact Hg | ].
    destruct (switchOpen m1); [ exact Hg | ].
    destruct (F32.ge _ _).
    + match goal with |- context [CheckFilament ?c ?a ?o m1] =>
        pose proof (CheckFilament_switchOpenMask c a o m1) as Hf;
        destruct (CheckFilament c a o m1) as [ret m2] end.
      cbn [snd] in Hf. mon_simpl. congruence.
    + destruct (syncOverdue r m1); [ | exact Hg ].
      match goal with |- context [CheckFilament ?c ?a ?o m1] =>
        pose proof (CheckFilament_switchOpenMask c a o m1) as Hf;
        destruct (CheckFilament c a o m1) as [ret m2] end.
      cbn [snd] in Hf. mon_simpl. congruence.
  - unfold Clear. cbn [snd]. now apply HandleIncomingData_no_switch.
Qed.

Lemma calls_no_switch (cs : list Call) (m : Monitor) :
  switchOpenMask m = 0 -> switchOpenMask (calls K cs m) = 0.
Proof.
  revert m. induction cs as [ | c cs IH]; intros m H; [ exact H | ].
  unfold calls in *. cbn [fold_left]. now apply IH, call_no_switch.
Qed.

Lemma switchOpen_no_switch (m : Monitor) : switchOpenMask m = 0 -> switchOpen m = false.
Proof. intros H. unfold switchOpen. rewrite H, Z.land_0_r. reflexivity. Qed.

(** X17. A monitor constructed for a sensor without a switch (a monitor type
    other than 4) never returns no-filament: not from [Check], not from
    [Clear], whatever calls came before and whatever words arrive, the
    version word that moves a sensor with a switch to the version 2 switch
    bit included. *)
Theorem no_switch_no_noFilament (blank0 : Monitor) (monitorType : Z)
    (d1 d2 d3 d4 : float32) (cs : list Call) (c : Call) :
  monitorType <> 4 ->
  let m := calls K cs (construct K blank0 monitorType d1 d2 d3 d4) in
  match c with
  | CallCheck isPrinting fromIsr isrMillis filamentConsumed r =>
      fst (Check K isPrinting fromIsr isrMillis filamentConsumed r m)
  | CallClear polled => fst (Clear K polled m)
  end <> FilamentSensorStatus.noFilament.
Proof.
  intros Ht m.
  assert (H0 : switchOpenMask (construct K blank0 monitorType d1 d2 d3 d4) = 0).
  { unfold construct, Init, Reset. mon_simpl.
    apply Z.eqb_neq in Ht. now rewrite Ht. }
  pose proof (calls_no_switch cs _ H0) as Hm. fold m in Hm.
  destruct c as [isPrinting fromIsr isrMillis fc r | polled].
  - destruct (Check_status_cases K isPrinting fromIsr isrMillis fc r m) as [Hs Hv].
    rewrite Hs.
    rewrite (switchOpen_no_switch _
               (CheckGather_no_switch isPrinting fromIsr isrMillis fc r m Hm)).
    destruct Hv as [Hv | Hv].
    + rewrite Hv. case_ifs; discriminate.
    + case_ifs; try discriminate.
      cbn [In] in Hv. intros E. rewrite E in Hv. intuition discriminate.
  - unfold Clear. cbn [fst].
    rewrite (switchOpen_no_switch _
               (HandleIncomingData_no_switch polled (Reset m) Hm)).
    case_ifs; discriminate.
Qed.

End SwitchProps.

Lemma no_switch_no_noFilament_witness :
  3 <> 4
  /\ fst (Check documented_layout true false 0 (F32.of_Z 1)
            (mkReceiver false [polledWord 0x6003 50 0; polledWord 0x1805 100 0] 100 false)
            (calls documented_layout []
               (construct documented_layout blank 3 (F32.of_Z 25) (F32.dyadic 1 (-1))
                  (F32.dyadic 3 (-1)) (F32.of_Z 3))))
     <> FilamentSensorStatus.noFilament.
Proof.
  assert (H : 3 <> 4) by lia.
  split; [ exact H | ].
  exact (no_switch_no_noFilament documented_layout blank 3 (F32.of_Z 25)
           (F32.dyadic 1 (-1)) (F32.dyadic 3 (-1)) (F32.of_Z 3) []
           (CallCheck true false 0 (F32.of_Z 1)
              (mkReceiver false [polledWord 0x6003 50 0; polledWord 0x1805 100 0]
                 100 false)) H).
Defined.

(** ** The residual at a fence *)

Lemma sync_transfer_no_residual_witness :
  let m := before_report_without_extrusion in
  haveStartBitData m = true
  /\ extrusionCommandedSinceLastSync m = extrusionCommandedAtCandidateStartBit m
  /\ extrusionCommandedSinceLastSync
       (PositionReport documented_layout 0x0020 (polledWord 0x0020 2010 0) m) = F32.zero.
Proof.
  intros m.
  assert (H1 : haveStartBitData m = true) by (vm_compute; reflexivity).
  assert (H2 : extrusionCommandedSinceLastSync m = extrusionCommandedAtCandidateStartBit m)
    by (vm_compute; reflexivity).
  split; [ exact H1 | split; [ exact H2 | ] ].
  apply (sync_transfer_no_residual documented_layout 0x0020 (polledWord 0x0020 2010 0) m
           H1 H2).
  right. vm_compute. eauto.
Defined.

(** ** The state machine across calls *)

Section StateMachineProps.
Variable K : Layout.

Lemma CheckGather_calibration (isPrinting fromIsr : bool) (isrMillis : Z)
    (filamentConsumed : float32) (r : Receiver) (m : Monitor) :
  let m1 := CheckGather K isPrinting fromIsr isrMillis filamentConsumed r m in
  magneticMonitorState m1 = magneticMonitorState m /\ backwards m1 = backwards m.
Proof.
  unfold CheckGather.
  match goal with |- context [HandleIncomingData K (polled r) ?x] =>
    pose proof (HandleIncomingData_frame K _ (HandlePolled_calibration K) (polled r) x)
      as Hc; set (m0 := x) in * end.
  cbv beta in Hc. injection Hc as C1 C2 _ _ _ _. cbv zeta. rewrite C1, C2.
  subst m0. destruct (fromIsr && IsWaitingForStartBit r); mon_simpl; auto.
Qed.

Lemma CheckDecide_comparing (r : Receiver) (m : Monitor) :
  magneticMonitorState m = comparing ->
  magneticMonitorState (snd (CheckDecide r m)) = comparing
  /\ backwards (snd (CheckDecide r m)) = backwards m.
Proof.
  intros Hs. unfold CheckDecide.
  destruct (sensorError m); [ auto | ].
  destruct (switchOpen m); [ auto | ].
  destruct (F32.ge _ _).
  - match goal with |- context [CheckFilament ?c ?a ?o m] =>
      pose proof (CheckFilament_comparing c a o m Hs) as [H1 H2];
      destruct (CheckFilament c a o m) as [ret m2] end.
    cbn [snd] in *. mon_simpl. auto.
  - destruct (syncOverdue r m); [ | auto ].
    match goal with |- context [CheckFilament ?c ?a ?o m] =>
      pose proof (CheckFilament_comparing c a o m Hs) as [H1 H2];
      destruct (CheckFilament c a o m) as [ret m2] end.
    cbn [snd] in *. mon_simpl. auto.
Qed.

(** No call of [Check] leaves the comparing state or writes the flag there. *)
Lemma Check_calls_comparing (cs : list Call) (m : Monitor) :
  forallb isCheck cs = true ->
  magneticMonitorState m = comparing ->
  magneticMonitorState (calls K cs m) = comparing
  /\ backwards (calls K cs m) = backwards m.
Proof.
  revert m. induction cs as [ | c cs IH]; intros m Hcs Hs; [ now split | ].
  cbn [forallb] in Hcs. apply andb_true_iff in Hcs. destruct Hcs as [Hc Hcs].
  destruct c as [isPrinting fromIsr isrMillis fc r | polled]; [ | discriminate ].
  unfold calls in *. cbn [fold_left call]. rewrite Check_snd.
  destruct (CheckGather_calibration isPrinting fromIsr isrMillis fc r m) as [G1 G2].
  rewrite Hs in G1.
  destruct (CheckDecide_comparing r _ G1) as [D1 D2].
  destruct (IH _ Hcs D1) as [I1 I2].
  split; [ exact I1 | ]. now rewrite I2, D2, G2.
Qed.

Lemma Clear_calibration (polled : list Polled) (m : Monitor) :
  magneticMonitorState (snd (Clear K polled m)) = idle
  /\ backwards (snd (Clear K polled m)) = backwards m.
Proof.
  unfold Clear. cbn [snd].
  pose proof (HandleIncomingData_frame K _ (HandlePolled_calibration K) polled (Reset m))
    as Hc.
  cbv beta in Hc. injection Hc as C1 C2 _ _ _ _. now rewrite C1, C2.
Qed.

(** C4, as amended. A comparison request made once data has been received
    moves the state machine from idle to calibrating and stores the window as
    the lifetime totals without testing them.  A later request in the
    calibrating state adds the window to the totals and moves to comparing
    exactly when the lifetime commanded extrusion is then at least 10.0; at
    that transition the backwards flag is (lifetime measured movement < 0),
    the lifetime measured movement is negated if backwards, and the ratio of
    lifetime movement to lifetime extrusion is both the minimum and the
    maximum ratio.  From the comparing state no sequence of comparison
    windows and no sequence of calls of [Check] changes the state or the
    backwards flag.  [Clear] returns the state machine to idle and leaves the
    flag; the calibration that follows writes it anew. *)
Theorem CheckFilament_state_machine (c a : float32) (overdue : bool) (m : Monitor) :
  dataReceived m = true ->
  let m' := snd (CheckFilament c a overdue m) in
  let totalE := F32.add (totalExtrusionCommanded m) c in
  let totalM := F32.add (totalMovementMeasured m) a in
  match magneticMonitorState m with
  | idle =>
      magneticMonitorState m' = calibrating
      /\ backwards m' = backwards m
      /\ totalExtrusionCommanded m' = c
      /\ totalMovementMeasured m' = a
  | calibrating =>
      if F32.ge totalE (F32.of_Z 10) then
        magneticMonitorState m' = comparing
        /\ backwards m' = F32.lt totalM F32.zero
        /\ totalExtrusionCommanded m' = totalE
        /\ totalMovementMeasured m'
           = (if F32.lt totalM F32.zero then F32.neg totalM else totalM)
        /\ minMovementRatio m' = F32.div (totalMovementMeasured m') totalE
        /\ maxMovementRatio m' = F32.div (totalMovementMeasured m') totalE
      else
        magneticMonitorState m' = calibrating
        /\ backwards m' = backwards m
        /\ totalExtrusionCommanded m' = totalE
        /\ totalMovementMeasured m' = totalM
  | comparing =>
      (forall windows,
          magneticMonitorState (CheckFilament_all windows m') = comparing
          /\ backwards (CheckFilament_all windows m') = backwards m)
      /\ (forall cs, forallb isCheck cs = true ->
            magneticMonitorState (calls K cs m') = comparing
            /\ backwards (calls K cs m') = backwards m)
  end
  /\ (forall polled,
         magneticMonitorState (snd (Clear K polled m')) = idle
         /\ backwards (snd (Clear K polled m')) = backwards m').
Proof.
  intros Hdata m' totalE totalM.
  split; [ | intros polled; apply Clear_calibration ].
  destruct (magneticMonitorState m) eqn:Hstate.
  - subst m'. unfold CheckFilament. rewrite Hdata, Hstate. mon_simpl. auto.
  - subst m' totalE totalM. unfold CheckFilament, ratioVerdict.
    rewrite Hdata, Hstate. mon_simpl.
    destruct (F32.ge (F32.add (totalExtrusionCommanded m) c) (F32.of_Z 10));
      [ | mon_simpl; auto ].
    destruct (F32.lt (F32.add (totalMovementMeasured m) a) F32.zero);
      mon_cases; repeat split.
  - destruct (CheckFilament_comparing c a overdue m Hstate) as [Hs Hb]. fold m' in Hs, Hb.
    split.
    + intros windows.
      destruct (CheckFilament_all_comparing windows m' Hs) as [Hs' Hb'].
      split; [ exact Hs' | now rewrite Hb' ].
    + intros cs Hcs.
      destruct (Check_calls_comparing cs m' Hcs Hs) as [Hs' Hb'].
      split; [ exact Hs' | now rewrite Hb' ].
Qed.

End StateMachineProps.

Lemma CheckFilament_state_machine_witness :
  dataReceived calibrated = true
  /\ magneticMonitorState calibrated = comparing
  /\ backwards
       (calls documented_layout [check5 [0x03F0] 1000; check5 [] 2000]
          (snd (CheckFilament (F32.of_Z 4) (F32.neg (F32.dyadic 1 (-2))) false calibrated)))
     = backwards calibrated.
Proof.
  assert (Hdata : dataReceived calibrated = true) by (vm_compute; reflexivity).
  assert (Hstate : magneticMonitorState calibrated = comparing) by (vm_compute; reflexivity).
  split; [ exact Hdata | split; [ exact Hstate | ] ].
  pose proof (CheckFilament_state_machine documented_layout (F32.of_Z 4)
                (F32.neg (F32.dyadic 1 (-2))) false calibrated Hdata) as H.
  cbv zeta in H. rewrite Hstate in H.
  destruct H as [[_ H] _].
  exact (proj2 (H [check5 [0x03F0] 1000; check5 [] 2000] eq_refl)).
Defined.

(** C4, counterexample.  (1) No word has been received and 10 mm are
    commanded: the sync is overdue, the comparison is requested and answered
    no-data-received, and the state machine stays idle.  (2) With data
    received, a first window of 10 mm leaves the state machine calibrating
    with a lifetime total of 10.0: the total has reached 10.0 and the state
    is not comparing.  (3) From the comparing state with the backwards flag
    false, [Clear] and a print whose two windows measure a negative movement
    end in the comparing state with the flag true: a later window has
    written it. *)
Lemma state_machine_differs_from_claim :
  (let m := configured 3 false in
   let r := tick (F32.of_Z 10) [] 1000 0 m in
   magneticMonitorState m = idle
   /\ syncOverdue (mkReceiver false [] 1000 false)
        (CheckGather documented_layout true false 0 (F32.of_Z 10)
           (mkReceiver false [] 1000 false) m) = true
   /\ fst r = FilamentSensorStatus.noDataReceived
   /\ magneticMonitorState (snd r) = idle)
  /\ (let m' := snd (CheckFilament (F32.of_Z 10) (F32.dyadic 1 (-1)) false with_data) in
      dataReceived with_data = true
      /\ magneticMonitorState with_data = idle
      /\ totalExtrusionCommanded m' = F32.of_Z 10
      /\ F32.ge (totalExtrusionCommanded m') (F32.of_Z 10) = true
      /\ magneticMonitorState m' = calibrating)
  /\ (let m' := calls documented_layout reversed_print calibrated in
      magneticMonitorState calibrated = comparing
      /\ backwards calibrated = false
      /\ magneticMonitorState m' = comparing
      /\ backwards m' = true).
Proof. vm_compute. repeat split. Qed.
